(** * ZeusBuilder client-side utilities: timestamp formatting and alerts

    A shallow embedding of [zeus/static/js/utils/time_utils.js] and
    [zeus/static/js/main.js], together with the parts of the JavaScript
    platform (value coercions, the [Date] time value) and of the vendored
    dayjs 1.11.5 library that these two files go through.

    Conventions of the embedding:
    - a JavaScript primitive value is a [JsValue]; a Number is a binary64
      float of the Standard Library's [spec_float] (precision 53, emax 1024),
      so that products and string conversions round as IEEE 754 does;
    - a JavaScript string is a [string] whose characters stand for the code
      units 0..255;
    - an abrupt completion (a thrown [TypeError]) is explicit: code that can
      throw returns a [Completion];
    - the host time zone is an explicit parameter [tz], the offset from UTC
      in minutes at a given instant;
    - a DOM element on its own is its tag, its attribute map and its
      [innerText]; a page is a tree of nodes whose elements carry their
      identity, so that a node list keeps denoting them; for the alert,
      the document is the content of the alert container, if the page
      has one. *)

From Stdlib Require Import ZArith Bool List Ascii String Lia.
From Stdlib Require Import Numbers.DecimalString.
From Stdlib Require Import Floats.SpecFloat.
From stdpp Require Import base option gmap strings.

Local Open Scope string_scope.
Local Open Scope Z_scope.

(** ** Completions *)

Inductive JsError : Type :=
| TypeError (msg : string).

Inductive Completion (A : Type) : Type :=
| Normal (a : A)
| Throw (e : JsError).
Arguments Normal {A} a.
Arguments Throw {A} e.

Definition cbind {A B : Type} (c : Completion A) (k : A -> Completion B)
  : Completion B :=
  match c with
  | Normal a => k a
  | Throw e => Throw e
  end.

Notation "'let*' x ':=' c 'in' k" := (cbind c (fun x => k))
  (at level 10, x name, c at level 100, k at level 200).

Definition isNormal {A : Type} (c : Completion A) : bool :=
  match c with Normal _ => true | Throw _ => false end.

(** ** JavaScript primitive values *)

Module JS.

(** A Number is an IEEE 754 binary64 value. *)
Definition prec : Z := 53.
Definition emax : Z := 1024.
Definition JsNumber : Type := spec_float.

Definition NaN : JsNumber := S754_nan.
Definition Infinity : JsNumber := S754_infinity false.
Definition pos_zero : JsNumber := S754_zero false.

(** The Number value for an integer (round to nearest, ties to even). *)
Definition number_of_Z (z : Z) : JsNumber := binary_normalize prec emax z 0 false.

Inductive JsValue : Type :=
| JsUndefined
| JsNull
| JsBoolean (b : bool)
| JsNumberV (n : JsNumber)
| JsString (s : string)
| JsSymbol (description : string)
| JsBigInt (z : Z).

(** ToBoolean (ECMA-262 7.1.2). *)
Definition ToBoolean (v : JsValue) : bool :=
  match v with
  | JsUndefined => false
  | JsNull => false
  | JsBoolean b => b
  | JsNumberV n =>
      match n with
      | S754_zero _ => false
      | S754_nan => false
      | _ => true
      end
  | JsString s => negb (String.eqb s "")
  | JsSymbol _ => true
  | JsBigInt z => negb (z =? 0)
  end.

(** [a || b]. *)
Definition js_or (a b : JsValue) : JsValue :=
  if ToBoolean a then a else b.

(** *** StringToNumber (ECMA-262 7.1.4.1.1) *)

Definition is_whitespace (c : ascii) : bool :=
  let n := nat_of_ascii c in
  ((9 <=? n)%nat && (n <=? 13)%nat) || (n =? 32)%nat || (n =? 160)%nat.

Definition is_digit (c : ascii) : bool :=
  let n := nat_of_ascii c in (48 <=? n)%nat && (n <=? 57)%nat.

Definition digit_value (c : ascii) : Z := Z.of_nat (nat_of_ascii c) - 48.

(** Value of a hexadecimal digit, if [c] is one. *)
Definition hex_value (c : ascii) : option Z :=
  let n := Z.of_nat (nat_of_ascii c) in
  if (48 <=? n) && (n <=? 57) then Some (n - 48)
  else if (65 <=? n) && (n <=? 70) then Some (n - 55)
  else if (97 <=? n) && (n <=? 102) then Some (n - 87)
  else None.

Fixpoint drop_ws (l : list ascii) : list ascii :=
  match l with
  | c :: r => if is_whitespace c then drop_ws r else l
  | [] => []
  end.

Definition trim_ws (l : list ascii) : list ascii :=
  rev (drop_ws (rev (drop_ws l))).

Fixpoint span_digits (l : list ascii) : list ascii * list ascii :=
  match l with
  | c :: r =>
      if is_digit c then let '(ds, rest) := span_digits r in (c :: ds, rest)
      else ([], l)
  | [] => ([], [])
  end.

Definition digits_value (ds : list ascii) : Z :=
  fold_left (fun acc c => 10 * acc + digit_value c) ds 0.

(** Digits of a non-decimal literal in the given radix; [None] when a
    character is not a digit of that radix or there is no digit. *)
Fixpoint radix_value (radix : Z) (acc : Z) (l : list ascii) : option Z :=
  match l with
  | [] => Some acc
  | c :: r =>
      match hex_value c with
      | Some d => if d <? radix then radix_value radix (radix * acc + d) r else None
      | None => None
      end
  end.

(** The mathematical value of a StrUnsignedDecimalLiteral: either
    Infinity or [d * 10^e]. *)
Inductive MV : Type :=
| MVInfinity
| MVDecimal (d : Z) (e : Z).

(** ExponentPart_opt followed by the end of the literal. *)
Definition parse_exponent (l : list ascii) : option Z :=
  match l with
  | [] => Some 0
  | c :: r =>
      if (Ascii.eqb c "e" || Ascii.eqb c "E")%bool then
        let '(neg, r') :=
          match r with
          | s :: r' =>
              if Ascii.eqb s "-" then (true, r')
              else if Ascii.eqb s "+" then (false, r')
              else (false, r)
          | [] => (false, r)
          end in
        match span_digits r' with
        | ((_ :: _) as ds, []) =>
            Some (if neg then - digits_value ds else digits_value ds)
        | _ => None
        end
      else None
  end.

Definition decimal_of_parts (ds : list ascii) (fraction_digits : nat)
    (rest : list ascii) : option MV :=
  match ds with
  | [] => None
  | _ =>
      match parse_exponent rest with
      | Some x => Some (MVDecimal (digits_value ds) (x - Z.of_nat fraction_digits))
      | None => None
      end
  end.

Definition parse_unsigned_decimal (l : list ascii) : option MV :=
  if String.eqb (string_of_list_ascii l) "Infinity" then Some MVInfinity
  else
    let '(ip, r1) := span_digits l in
    match r1 with
    | c :: r1' =>
        if Ascii.eqb c "." then
          let '(fp, r2) := span_digits r1' in
          decimal_of_parts (ip ++ fp)%list (List.length fp) r2
        else decimal_of_parts ip 0 r1
    | [] => decimal_of_parts ip 0 r1
    end.

(** The Number value for [(-1)^neg * d * 10^e], correctly rounded. *)
Definition number_of_decimal (neg : bool) (d e : Z) : JsNumber :=
  match d with
  | Zpos p =>
      if 0 <=? e then binary_normalize prec emax (if neg then - (d * 10 ^ e) else d * 10 ^ e) 0 false
      else
        match 10 ^ (- e) with
        | Zpos q => SFdiv prec emax (S754_finite neg p 0) (S754_finite false q 0)
        | _ => NaN
        end
  | _ => S754_zero neg
  end.

Definition number_of_MV (neg : bool) (mv : MV) : JsNumber :=
  match mv with
  | MVInfinity => S754_infinity neg
  | MVDecimal d e => number_of_decimal neg d e
  end.

Definition parse_non_decimal (l : list ascii) : option Z :=
  match l with
  | z :: p :: ((_ :: _) as ds) =>
      if negb (Ascii.eqb z "0") then None
      else if (Ascii.eqb p "x" || Ascii.eqb p "X")%bool then radix_value 16 0 ds
      else if (Ascii.eqb p "o" || Ascii.eqb p "O")%bool then radix_value 8 0 ds
      else if (Ascii.eqb p "b" || Ascii.eqb p "B")%bool then radix_value 2 0 ds
      else None
  | _ => None
  end.

Definition StringToNumber (s : string) : JsNumber :=
  match trim_ws (list_ascii_of_string s) with
  | [] => pos_zero
  | (c :: r) as l =>
      match parse_non_decimal l with
      | Some z => number_of_Z z
      | None =>
          let '(neg, body) :=
            if Ascii.eqb c "-" then (true, r)
            else if Ascii.eqb c "+" then (false, r)
            else (false, l) in
          match parse_unsigned_decimal body with
          | Some mv => number_of_MV neg mv
          | None => NaN
          end
      end
  end.

(** *** ToNumeric and the [*] operator (ECMA-262 7.1.3, 13.7) *)

Inductive Numeric : Type :=
| NumNumber (n : JsNumber)
| NumBigInt (z : Z).

Definition ToNumeric (v : JsValue) : Completion Numeric :=
  match v with
  | JsUndefined => Normal (NumNumber NaN)
  | JsNull => Normal (NumNumber pos_zero)
  | JsBoolean b => Normal (NumNumber (if b then number_of_Z 1 else pos_zero))
  | JsNumberV n => Normal (NumNumber n)
  | JsString s => Normal (NumNumber (StringToNumber s))
  | JsSymbol _ => Throw (TypeError "Cannot convert a Symbol value to a number")
  | JsBigInt z => Normal (NumBigInt z)
  end.

Definition js_mul (a b : JsValue) : Completion JsValue :=
  let* x := ToNumeric a in
  let* y := ToNumeric b in
  match x, y with
  | NumNumber n, NumNumber m => Normal (JsNumberV (SFmul prec emax n m))
  | NumBigInt n, NumBigInt m => Normal (JsBigInt (n * m))
  | _, _ => Throw (TypeError "Cannot mix BigInt and other types, use explicit conversions")
  end.

End JS.

Import JS.

(** ** The Date time value (ECMA-262 21.4.1) *)

Module DateObj.

(** A time value: milliseconds since the epoch, or [None] for NaN. *)
Definition TimeValue : Type := option Z.

Definition msPerDay : Z := 86400000.
Definition msPerHour : Z := 3600000.
Definition msPerMinute : Z := 60000.
Definition msPerSecond : Z := 1000.
Definition maxTime : Z := 8640000000000000.

(** TimeClip applied to a Number: NaN when the number is not finite or
    exceeds 8.64e15 in magnitude, its integer part otherwise. *)
Definition TimeClip (x : JsNumber) : TimeValue :=
  match x with
  | S754_zero _ => Some 0
  | S754_finite s m e =>
      let exceeds :=
        if 0 <=? e then maxTime <? Zpos m * 2 ^ e
        else maxTime * 2 ^ (- e) <? Zpos m in
      let magnitude :=
        if 0 <=? e then Zpos m * 2 ^ e else Zpos m / 2 ^ (- e) in
      if exceeds then None else Some (if s then - magnitude else magnitude)
  | S754_infinity _ => None
  | S754_nan => None
  end.

Definition Day (t : Z) : Z := t / msPerDay.
Definition TimeWithinDay (t : Z) : Z := t mod msPerDay.

Definition DaysInYear (y : Z) : Z :=
  if negb (y mod 4 =? 0) then 365
  else if negb (y mod 100 =? 0) then 366
  else if negb (y mod 400 =? 0) then 365
  else 366.

Definition DayFromYear (y : Z) : Z :=
  365 * (y - 1970) + (y - 1969) / 4 - (y - 1901) / 100 + (y - 1601) / 400.

(** The largest [y] with [DayFromYear y <= Day t]: an estimate from the
    mean length of a year, corrected by at most one. *)
Definition YearFromTime (t : Z) : Z :=
  let day := Day t in
  let y := 1970 + (day * 400) / 146097 in
  if DayFromYear (y + 1) <=? day then y + 1
  else if day <? DayFromYear y then y - 1
  else y.

Definition InLeapYear (t : Z) : Z :=
  if DaysInYear (YearFromTime t) =? 366 then 1 else 0.

Definition DayWithinYear (t : Z) : Z := Day t - DayFromYear (YearFromTime t).

Definition MonthFromTime (t : Z) : Z :=
  let d := DayWithinYear t in
  let l := InLeapYear t in
  if d <? 31 then 0
  else if d <? 59 + l then 1
  else if d <? 90 + l then 2
  else if d <? 120 + l then 3
  else if d <? 151 + l then 4
  else if d <? 181 + l then 5
  else if d <? 212 + l then 6
  else if d <? 243 + l then 7
  else if d <? 273 + l then 8
  else if d <? 304 + l then 9
  else if d <? 334 + l then 10
  else 11.

Definition DateFromTime (t : Z) : Z :=
  let d := DayWithinYear t in
  let l := InLeapYear t in
  match MonthFromTime t with
  | 0 => d + 1
  | 1 => d - 30
  | 2 => d - 58 - l
  | 3 => d - 89 - l
  | 4 => d - 119 - l
  | 5 => d - 150 - l
  | 6 => d - 180 - l
  | 7 => d - 211 - l
  | 8 => d - 242 - l
  | 9 => d - 272 - l
  | 10 => d - 303 - l
  | _ => d - 333 - l
  end.

Definition WeekDay (t : Z) : Z := (Day t + 4) mod 7.
Definition HourFromTime (t : Z) : Z := (t / msPerHour) mod 24.
Definition MinFromTime (t : Z) : Z := (t / msPerMinute) mod 60.
Definition SecFromTime (t : Z) : Z := (t / msPerSecond) mod 60.
Definition msFromTime (t : Z) : Z := t mod msPerSecond.

(** The host time zone: the offset of local time from UTC, in minutes,
    at the instant [t]. *)
Definition TimeZone : Type := Z -> Z.
Definition UTC : TimeZone := fun _ => 0.

Definition LocalTime (tz : TimeZone) (t : Z) : Z := t + tz t * msPerMinute.

(** [Date.prototype.getTimezoneOffset], in minutes. *)
Definition getTimezoneOffset (tz : TimeZone) (t : Z) : Z :=
  (t - LocalTime tz t) / msPerMinute.

End DateObj.

Import DateObj.

(** ** dayjs 1.11.5 with its utc plugin *)

Module Dayjs.

(** Modelled from the spec: the dayjs library ([lib/dayjs1.11.5.min.js]
    and [lib/dayjs_utc1.11.5.js]) is vendored outside the translated
    sources.  The spec describes it as interpreting a value as seconds
    since the Unix epoch, constructing a calendar time, validating it,
    converting to the local time zone and rendering a token pattern; the
    definitions below follow that description along the published
    dayjs 1.11.5 code paths: [dayjs.unix], [dayjs(instance)], [isValid],
    [local] and [format] with the default English locale. *)
Record Dayjs : Type := mkDayjs {
  d : TimeValue;   (* $d: the wrapped Date *)
  u : bool         (* $u: set by the utc plugin for UTC instances *)
}.

Definition INVALID_DATE_STRING : string := "Invalid Date".
Definition FORMAT_DEFAULT : string := "YYYY-MM-DDTHH:mm:ssZ".
Definition UTC_FORMAT_DEFAULT : string := "YYYY-MM-DDTHH:mm:ss[Z]".

Definition weekdays : list string :=
  ["Sunday"; "Monday"; "Tuesday"; "Wednesday"; "Thursday"; "Friday"; "Saturday"].
Definition months : list string :=
  ["January"; "February"; "March"; "April"; "May"; "June"; "July";
   "August"; "September"; "October"; "November"; "December"].

(** [dayjs(n)] for a Number [n]: [new Date(n)] wrapped in a local-mode
    instance. *)
Definition dayjs_of_number (n : JsNumber) : Dayjs :=
  mkDayjs (TimeClip n) false.

(** Modelled from the spec: [dayjs.unix], which reads the value as
    seconds since the Unix epoch and builds the calendar time:
    [dayjs.unix = t => dayjs(t * 1e3)].  The product throws for a Symbol
    and for a BigInt (mixed with the Number 1000). *)
Definition unix (timestamp : JsValue) : Completion Dayjs :=
  let* ms := js_mul timestamp (JsNumberV (number_of_Z 1000)) in
  match ms with
  | JsNumberV n => Normal (dayjs_of_number n)
  | _ => Throw (TypeError "Cannot mix BigInt and other types, use explicit conversions")
  end.

(** Modelled from the spec: [dayjs(instance)], which returns
    [instance.clone()]: same date, same mode. *)
Definition clone (inst : Dayjs) : Dayjs := mkDayjs (d inst) (u inst).

(** Modelled from the spec: [isValid], the validation that the instance
    is a real calendar date: the wrapped Date does not print as
    [Invalid Date], that is its time value is not NaN. *)
Definition isValid (inst : Dayjs) : bool :=
  match d inst with Some _ => true | None => false end.

(** Modelled from the spec: [local()] of the utc plugin, the conversion
    to the consumer's local time zone: the same instant in local mode. *)
Definition local (inst : Dayjs) : Dayjs := mkDayjs (d inst) false.

(** A value held by the [matches] table of [format]: a Number (always an
    integer there) or a String. *)
Inductive Piece : Type :=
| PNum (z : Z)
| PStr (s : string).

Definition Z_to_string (z : Z) : string := NilZero.string_of_int (Z.to_int z).

Definition piece_truthy (p : Piece) : bool :=
  match p with
  | PNum z => negb (Z.eqb z 0)
  | PStr s => negb (String.eqb s "")
  end.

Definition piece_to_string (p : Piece) : string :=
  match p with
  | PNum z => Z_to_string z
  | PStr s => s
  end.

Fixpoint repeat_string (pad : string) (n : nat) : string :=
  match n with
  | O => ""
  | S k => pad ++ repeat_string pad k
  end.

(** [Utils.s]: pad the decimal form of [z] on the left up to [len]
    characters; a value that is long enough is returned as it is. *)
Definition padStart (z : Z) (len : nat) (pad : string) : Piece :=
  let s := Z_to_string z in
  if (String.eqb s "" || (len <=? String.length s)%nat)%bool then PNum z
  else PStr (repeat_string pad (len - String.length s) ++ s).

(** [String.prototype.slice(-n)]: the last [n] characters. *)
Definition slice_last (n : nat) (s : string) : string :=
  substring (String.length s - n) n s.

(** [String.prototype.slice(0, n)]. *)
Definition slice_first (n : nat) (s : string) : string :=
  substring 0 n s.

(** [s.replace(':', '')]: drop the first colon. *)
Fixpoint remove_first_colon (s : string) : string :=
  match s with
  | "" => ""
  | String c r => if Ascii.eqb c ":" then r else String c (remove_first_colon r)
  end.

(** *** The pattern [REGEX_FORMAT]

    [/\[([^\]]+)]|Y{1,4}|M{1,4}|D{1,2}|d{1,4}|H{1,2}|h{1,2}|a|A|m{1,2}|s{1,2}|Z{1,2}|SSS/g] *)

Fixpoint run_length (c : ascii) (s : string) : nat :=
  match s with
  | String c' r => if Ascii.eqb c c' then S (run_length c r) else O
  | "" => O
  end.

(** The longest prefix without a closing bracket, and what follows it. *)
Fixpoint span_not_close (s : string) : string * string :=
  match s with
  | String c r =>
      if Ascii.eqb c "]" then ("", s)
      else let '(body, rest) := span_not_close r in (String c body, rest)
  | "" => ("", "")
  end.

(** Greatest number of repetitions of the token letter [c], if [c]
    starts a quantified alternative of the pattern. *)
Definition token_max (c : ascii) : option nat :=
  if Ascii.eqb c "Y" then Some 4%nat
  else if Ascii.eqb c "M" then Some 4%nat
  else if Ascii.eqb c "D" then Some 2%nat
  else if Ascii.eqb c "d" then Some 4%nat
  else if Ascii.eqb c "H" then Some 2%nat
  else if Ascii.eqb c "h" then Some 2%nat
  else if Ascii.eqb c "a" then Some 1%nat
  else if Ascii.eqb c "A" then Some 1%nat
  else if Ascii.eqb c "m" then Some 2%nat
  else if Ascii.eqb c "s" then Some 2%nat
  else if Ascii.eqb c "Z" then Some 2%nat
  else None.

(** The match of the pattern anchored at the start of [s], if any: the
    matched text and the first capture group. *)
Definition match_at (s : string) : option (string * option string) :=
  match s with
  | "" => None
  | String c r =>
      if Ascii.eqb c "[" then
        match span_not_close r with
        | (String _ _ as body, String _ _) => Some ("[" ++ body ++ "]", Some body)
        | _ => None
        end
      else
        match token_max c with
        | Some n => Some (repeat_string (String c "") (Nat.min n (run_length c s)), None)
        | None =>
            if String.prefix "SSS" s then Some ("SSS", None) else None
        end
  end.

(** [s.replace(REGEX_FORMAT, f)]: every match, scanning from the left,
    is replaced by [f match group1]; [skip] counts the characters of the
    current match still to be passed over. *)
Fixpoint replace_from (f : string -> option string -> string) (skip : nat)
    (s : string) : string :=
  match s with
  | "" => ""
  | String c r =>
      match skip with
      | S k => replace_from f k r
      | O =>
          match match_at s with
          | Some (m, g1) => f m g1 ++ replace_from f (String.length m - 1) r
          | None => String c (replace_from f 0 r)
          end
      end
  end.

Definition replace_format (f : string -> option string -> string) (s : string)
  : string := replace_from f 0 s.

Section Host.
Variable tz : TimeZone.

(** [utcOffset()]: minutes east of UTC, rounded to a quarter of an hour
    ([-Math.round(getTimezoneOffset() / 15) * 15]); 0 in UTC mode. *)
Definition utcOffset (inst : Dayjs) : Z :=
  match d inst with
  | Some t =>
      if u inst then 0
      else - (((2 * getTimezoneOffset tz t + 15) / 30) * 15)
  | None => 0
  end.

(** [Utils.z]: the zone as [+hh:mm]. *)
Definition padZoneStr (inst : Dayjs) : string :=
  let negMinutes := - utcOffset inst in
  let minutes := Z.abs negMinutes in
  let hourOffset := minutes / 60 in
  let minuteOffset := minutes mod 60 in
  (if negMinutes <=? 0 then "+" else "-")
    ++ piece_to_string (padStart hourOffset 2 "0")
    ++ ":" ++ piece_to_string (padStart minuteOffset 2 "0").

(** The time the calendar fields are read from: UTC getters in UTC
    mode, local getters otherwise. *)
Definition fieldTime (inst : Dayjs) (t : Z) : Z :=
  if u inst then t else LocalTime tz t.

Definition nth_string (l : list string) (i : Z) : string :=
  nth (Z.to_nat i) l "".

(** The [matches] table of [format] for the instant [t]. *)
Definition matches (inst : Dayjs) (t : Z) (token : string) : option Piece :=
  let lt := fieldTime inst t in
  let y := YearFromTime lt in
  let M := MonthFromTime lt in
  let D := DateFromTime lt in
  let W := WeekDay lt in
  let H := HourFromTime lt in
  let m := MinFromTime lt in
  let s := SecFromTime lt in
  let ms := msFromTime lt in
  let get_H (num : nat) :=
    padStart (if Z.eqb (H mod 12) 0 then 12 else H mod 12) num "0" in
  let meridiem (lower : bool) :=
    if H <? 12 then (if lower then "am" else "AM")
    else (if lower then "pm" else "PM") in
  if String.eqb token "YY" then Some (PStr (slice_last 2 (Z_to_string y)))
  else if String.eqb token "YYYY" then Some (PNum y)
  else if String.eqb token "M" then Some (PNum (M + 1))
  else if String.eqb token "MM" then Some (padStart (M + 1) 2 "0")
  else if String.eqb token "MMM" then Some (PStr (slice_first 3 (nth_string months M)))
  else if String.eqb token "MMMM" then Some (PStr (nth_string months M))
  else if String.eqb token "D" then Some (PNum D)
  else if String.eqb token "DD" then Some (padStart D 2 "0")
  else if String.eqb token "d" then Some (PStr (Z_to_string W))
  else if String.eqb token "dd" then Some (PStr (slice_first 2 (nth_string weekdays W)))
  else if String.eqb token "ddd" then Some (PStr (slice_first 3 (nth_string weekdays W)))
  else if String.eqb token "dddd" then Some (PStr (nth_string weekdays W))
  else if String.eqb token "H" then Some (PStr (Z_to_string H))
  else if String.eqb token "HH" then Some (padStart H 2 "0")
  else if String.eqb token "h" then Some (get_H 1%nat)
  else if String.eqb token "hh" then Some (get_H 2%nat)
  else if String.eqb token "a" then Some (PStr (meridiem true))
  else if String.eqb token "A" then Some (PStr (meridiem false))
  else if String.eqb token "m" then Some (PStr (Z_to_string m))
  else if String.eqb token "mm" then Some (padStart m 2 "0")
  else if String.eqb token "s" then Some (PStr (Z_to_string s))
  else if String.eqb token "ss" then Some (padStart s 2 "0")
  else if String.eqb token "SSS" then Some (padStart ms 3 "0")
  else if String.eqb token "Z" then Some (PStr (padZoneStr inst))
  else None.

(** The callback of the replacement:
    [(match, $1) => $1 || matches[match] || zoneStr.replace(':', '')]. *)
Definition format_token (inst : Dayjs) (t : Z) (token : string)
    (group1 : option string) : string :=
  let zone := remove_first_colon (padZoneStr inst) in
  match group1 with
  | Some (String _ _ as g) => g
  | _ =>
      match matches inst t token with
      | Some p => if piece_truthy p then piece_to_string p else zone
      | None => zone
      end
  end.

(** Modelled from the spec: [format(formatStr)], the rendering of the
    instant under a token pattern, through the utc plugin's wrapper.  A pattern
    that is not a String has no [replace] method: the call throws. *)
Definition format (inst : Dayjs) (formatStr : JsValue) : Completion string :=
  let str := js_or formatStr (JsString (if u inst then UTC_FORMAT_DEFAULT else "")) in
  match d inst with
  | None => Normal INVALID_DATE_STRING
  | Some t =>
      match js_or str (JsString FORMAT_DEFAULT) with
      | JsString pattern => Normal (replace_format (format_token inst t) pattern)
      | _ => Throw (TypeError "str.replace is not a function")
      end
  end.

End Host.

End Dayjs.

(** ** The DOM as the two files see it *)

Module DOM.

(** An element: its tag, its content attributes by name, and the text
    it shows. *)
Record Element : Type := mkElement {
  tagName : string;
  attributes : gmap string string;
  innerText : string
}.

Definition set_innerText (el : Element) (text : string) : Element :=
  mkElement (tagName el) (attributes el) text.

Definition is_upper (c : ascii) : bool :=
  let n := nat_of_ascii c in (65 <=? n)%nat && (n <=? 90)%nat.

Definition to_lower (c : ascii) : ascii := ascii_of_nat (nat_of_ascii c + 32).

(** The content attribute behind a [dataset] property: every upper-case
    letter of the property name becomes a hyphen and its lower-case
    letter, after the prefix [data-]. *)
Fixpoint hyphenate (name : string) : string :=
  match name with
  | "" => ""
  | String c r =>
      if is_upper c then String "-" (String (to_lower c) (hyphenate r))
      else String c (hyphenate r)
  end.

Definition dataset_attribute (property : string) : string :=
  "data-" ++ hyphenate property.

(** [el.dataset[property]]: the attribute's value, or [undefined]. *)
Definition dataset (el : Element) (property : string) : JsValue :=
  match attributes el !! dataset_attribute property with
  | Some v => JsString v
  | None => JsUndefined
  end.

(** The data attribute called [name], that is the content attribute
    [data-name]. *)
Definition data_attribute (el : Element) (name : string) : option string :=
  attributes el !! ("data-" ++ name).

(** *** The tree of the page

    A node of the page.  An element carries its identity as an object: a
    reference held by a node list goes on denoting the same element
    whatever happens to the tree, and an element that has left the tree
    is simply no longer found in it. *)
#[local] Unset Elimination Schemes.
Inductive Node : Type :=
| TextNode (data : string)
| LineBreak
| ElementNode (identity : positive) (tag : string)
    (attrs : gmap string string) (children : list Node).
#[local] Set Elimination Schemes.

(** A reference to an element, as a node list holds it.  The attributes
    are those at the time of the query; nothing in the two files changes
    an attribute afterwards. *)
Record ElementRef : Type := mkRef {
  ref_identity : positive;
  ref_tag : string;
  ref_attributes : gmap string string
}.

(** [querySelectorAll('[name]')] from the node [n]: the elements having
    the attribute [name], in tree order. *)
Fixpoint querySelectorAll_attribute (name : string) (n : Node) : list ElementRef :=
  match n with
  | ElementNode i tag attrs children =>
      (if decide (is_Some (attrs !! name)) then [mkRef i tag attrs] else [])
        ++ flat_map (querySelectorAll_attribute name) children
  | _ => []
  end.

Definition text_run (run : string) : list Node :=
  match run with
  | "" => []
  | _ => [TextNode run]
  end.

(** The nodes an [innerText] assignment makes of [text]: each maximal run
    without line feed or carriage return becomes a text node, each line
    feed, carriage return, or carriage return with its line feed a [br]
    element ([LineBreak]).  [run] is the run read so far. *)
Fixpoint rendered_text_fragment_from (run text : string) : list Node :=
  match text with
  | "" => text_run run
  | String c rest =>
      if Ascii.eqb c "010" then
        (text_run run ++ LineBreak :: rendered_text_fragment_from "" rest)%list
      else if Ascii.eqb c "013" then
        match rest with
        | String c' rest' =>
            if Ascii.eqb c' "010" then
              (text_run run ++ LineBreak :: rendered_text_fragment_from "" rest')%list
            else
              (text_run run ++ LineBreak :: rendered_text_fragment_from "" rest)%list
        | "" => (text_run run ++ [LineBreak])%list
        end
      else rendered_text_fragment_from (run ++ String c "") rest
  end.

Definition rendered_text_fragment (text : string) : list Node :=
  rendered_text_fragment_from "" text.

(** [el.innerText = text] seen from the node [n], where [el] is the
    element of identity [target]: its children are replaced by the
    rendered text.  An element that is not in the tree leaves it as it
    is. *)
Fixpoint assign_innerText (target : positive) (text : string) (n : Node) : Node :=
  match n with
  | ElementNode i tag attrs children =>
      if Pos.eqb i target then ElementNode i tag attrs (rendered_text_fragment text)
      else ElementNode i tag attrs (map (assign_innerText target text) children)
  | _ => n
  end.

(** The identities of the elements of a tree, in tree order. *)
Fixpoint identities (n : Node) : list positive :=
  match n with
  | ElementNode i _ _ children => i :: flat_map identities children
  | _ => []
  end.

(** The elements of a tree with their tags and attributes. *)
Fixpoint elements (n : Node) : list ElementRef :=
  match n with
  | ElementNode i tag attrs children => mkRef i tag attrs :: flat_map elements children
  | _ => []
  end.

End DOM.

Import DOM.

(** ** zeus/static/js/utils/time_utils.js *)

Module TimeUtils.

Definition DEFAULT_FORMAT : string := "MM/DD/YY hh:mm:ss a".

Section Host.
Variable tz : TimeZone.

(** [formatTimeStampValue(value, format = undefined)] *)
Definition formatTimeStampValue (value format : JsValue) : Completion string :=
  if ToBoolean value then
    let fmt := js_or format (JsString DEFAULT_FORMAT) in
    let* parsed := Dayjs.unix value in
    if Dayjs.isValid (Dayjs.clone parsed) then
      Dayjs.format tz (Dayjs.local parsed) fmt
    else Normal ""
  else Normal "".

(** [formatTimeStampElement(el)]: the element after the call. *)
Definition formatTimeStampElement (el : Element) : Completion Element :=
  if ToBoolean (dataset el "timestamp") then
    let fmt := js_or (dataset el "timeformat") (JsString DEFAULT_FORMAT) in
    let* formatted := formatTimeStampValue (dataset el "timestamp") fmt in
    if ToBoolean (JsString formatted) then Normal (set_innerText el formatted)
    else Normal el
  else Normal el.

End Host.

End TimeUtils.

Import TimeUtils.

(** ** zeus/static/js/main.js *)

Module Main.

(** An alert object: its own properties, each holding a String. *)
Definition Alert : Type := gmap string string.

(** [alert[key] || fallback], as interpolated into the template. *)
Definition property_or (alert : Alert) (key fallback : string) : string :=
  match js_or (match alert !! key with Some v => JsString v | None => JsUndefined end)
              (JsString fallback) with
  | JsString s => s
  | _ => fallback
  end.

Definition quote : string := String "034"%char "".
Definition newline : string := String "010"%char "".

(** The template literal of [htmxAlert] with its two substitutions. *)
Definition alert_markup (severity message : string) : string :=
  newline
  ++ "    <div class=" ++ quote ++ "alert alert-dismissible alert-" ++ severity
  ++ " alert-float" ++ quote ++ ">" ++ newline
  ++ "        <button type=" ++ quote ++ "button" ++ quote
  ++ " class=" ++ quote ++ "btn-close" ++ quote
  ++ " data-bs-dismiss=" ++ quote ++ "alert" ++ quote ++ "></button>" ++ newline
  ++ "        " ++ message ++ newline
  ++ "    </div>".

Definition alert_container : string := "alert-container".

(** The document, as far as
    [document.getElementById("alert-container").innerHTML = markup] goes:
    the markup assigned to the element of id [alert-container], or [None]
    when the page has no such element.  Nothing else of the page is
    represented here. *)
Record Document : Type := mkDocument {
  alertContainer : option string
}.

(** [htmxAlert(alert)]: the document after the call.  Without an element
    of id [alert-container] the assignment is to a property of [null]. *)
Definition htmxAlert (alert : Alert) (doc : Document) : Completion Document :=
  match alertContainer doc with
  | Some _ =>
      Normal (mkDocument
                (Some (alert_markup (property_or alert "severity" "danger")
                         (property_or alert "message" "Oof. Unknown Error Occurred."))))
  | None => Throw (TypeError "Cannot set properties of null (setting 'innerHTML')")
  end.

(** What an [htmx:responseError] event carries for this page: the alert
    payload of the failed response, when there is one. *)
Record ResponseErrorEvent : Type := mkEvent {
  payload : option Alert
}.

(** The handler registered with [htmx.on("htmx:responseError", ...)]. *)
Definition onResponseError (evt : ResponseErrorEvent) (doc : Document)
  : Completion Document :=
  htmxAlert ∅ doc.

(** What a call [formatTimeStampElement(el)] assigns to [el.innerText],
    if it assigns anything, for the element [ref] denotes.  The element
    is run showing no text, so that an assigned text, which is never
    empty, is the text it shows afterwards. *)
Definition innerText_assignment (tz : TimeZone) (ref : ElementRef)
  : Completion (option string) :=
  let* el' := formatTimeStampElement tz
                (mkElement (ref_tag ref) (ref_attributes ref) "") in
  Normal (match innerText el' with
          | "" => None
          | text => Some text
          end).

(** [formatTimeStampElement(el)] with [el] an element of the page [doc]:
    the page after the call. *)
Definition formatTimeStampElement_in (tz : TimeZone) (ref : ElementRef)
    (doc : Node) : Completion Node :=
  let* assignment := innerText_assignment tz ref in
  Normal (match assignment with
          | Some text => assign_innerText (ref_identity ref) text doc
          | None => doc
          end).

(** [list.forEach(f)] for a callback acting on a state; an exception ends
    the loop. *)
Fixpoint forEach {A S : Type} (l : list A) (f : A -> S -> Completion S) (s : S)
  : Completion S :=
  match l with
  | [] => Normal s
  | x :: rest => let* s' := f x s in forEach rest f s'
  end.

(** [initTimeStamps('[attribute]')] on the page [doc]: the node list is
    taken first, then every element of it is formatted in turn, whether
    or not it is still in the page. *)
Definition initTimeStamps (tz : TimeZone) (attribute : string) (doc : Node)
  : Completion Node :=
  forEach (querySelectorAll_attribute attribute doc)
          (formatTimeStampElement_in tz) doc.

End Main.

Import Main.

(** ** Vocabulary of the statements *)

(** The optional second argument of [formatTimeStampValue] when it is a
    format pattern: absent ([undefined]) or a String. *)
Definition optional_format (format : option string) : JsValue :=
  match format with
  | Some pattern => JsString pattern
  | None => JsUndefined
  end.

(** The pattern that [format || DEFAULT_FORMAT] selects. *)
Definition applicable_pattern (format : option string) : string :=
  match format with
  | Some (String _ _ as pattern) => pattern
  | _ => DEFAULT_FORMAT
  end.

(** The values that [dayjs.unix] cannot multiply by 1000 and that pass the
    truthiness test: Symbols and non-zero BigInts. *)
Definition symbol_or_nonzero_bigint (v : JsValue) : bool :=
  match v with
  | JsSymbol _ => true
  | JsBigInt z => negb (Z.eqb z 0)
  | _ => false
  end.

(** [value] parses into a valid calendar timestamp: [dayjs.unix(value)]
    returns an instance whose date is valid. *)
Definition parses_to_valid (value : JsValue) : bool :=
  match Dayjs.unix value with
  | Normal parsed => Dayjs.isValid (Dayjs.clone parsed)
  | Throw _ => false
  end.

(** The element after [formatTimeStampElement] received [formatted] from
    [formatTimeStampValue]. *)
Definition with_formatted (el : Element) (formatted : Completion string)
  : Completion Element :=
  match formatted with
  | Normal "" => Normal el
  | Normal text => Normal (set_innerText el text)
  | Throw e => Throw e
  end.

(** The text assigned to the element [ref] denotes, if any. *)
Definition assignment_of (tz : TimeZone) (ref : ElementRef) : option string :=
  match innerText_assignment tz ref with
  | Normal assignment => assignment
  | Throw _ => None
  end.

(** The assignments of a node list carried out in turn. *)
Definition assign_all (tz : TimeZone) (refs : list ElementRef) (doc : Node) : Node :=
  fold_left
    (fun page ref =>
       match assignment_of tz ref with
       | Some text => assign_innerText (ref_identity ref) text page
       | None => page
       end)
    refs doc.

(** The page with every element that has the attribute [attribute] and
    is assigned a text showing that text alone, from the root down: what
    lies inside such an element is gone, the rest is as it was. *)
Fixpoint formatted_view (tz : TimeZone) (attribute : string) (n : Node) : Node :=
  match n with
  | ElementNode i tag attrs children =>
      match (if decide (is_Some (attrs !! attribute))
             then assignment_of tz (mkRef i tag attrs) else None) with
      | Some text => ElementNode i tag attrs (rendered_text_fragment text)
      | None => ElementNode i tag attrs (map (formatted_view tz attribute) children)
      end
  | _ => n
  end.

(** [needle] occurs in [text]. *)
Definition occurs_in (needle text : string) : bool :=
  match String.index 0 needle text with Some _ => true | None => false end.

(** ** Auxiliary facts *)

Lemma append_nonempty_l (a b : string) : a <> "" -> (a ++ b)%string <> "".
Proof. destruct a as [|c a]; [congruence | discriminate]. Qed.

Lemma Z_to_string_nonempty (z : Z) : Dayjs.Z_to_string z <> "".
Proof.
  unfold Dayjs.Z_to_string, Z.to_int.
  destruct z as [|p|p]; simpl; try discriminate.
  unfold NilZero.string_of_uint.
  destruct (Pos.to_uint p); simpl; discriminate.
Qed.

Lemma piece_to_string_truthy (p : Dayjs.Piece) :
  Dayjs.piece_truthy p = true -> Dayjs.piece_to_string p <> "".
Proof.
  destruct p as [z|s]; simpl; intros H.
  - apply Z_to_string_nonempty.
  - intros ->. discriminate.
Qed.

Lemma zone_without_colon_nonempty (tz : TimeZone) (inst : Dayjs.Dayjs) :
  Dayjs.remove_first_colon (Dayjs.padZoneStr tz inst) <> "".
Proof.
  unfold Dayjs.padZoneStr.
  destruct (- Dayjs.utcOffset tz inst <=? 0); simpl; discriminate.
Qed.

Lemma format_token_nonempty (tz : TimeZone) (inst : Dayjs.Dayjs) (t : Z)
    (token : string) (group1 : option string) :
  Dayjs.format_token tz inst t token group1 <> "".
Proof.
  unfold Dayjs.format_token.
  assert (Hz := zone_without_colon_nonempty tz inst).
  assert (Hm : (match Dayjs.matches tz inst t token with
                | Some p => if Dayjs.piece_truthy p then Dayjs.piece_to_string p
                            else Dayjs.remove_first_colon (Dayjs.padZoneStr tz inst)
                | None => Dayjs.remove_first_colon (Dayjs.padZoneStr tz inst)
                end) <> "").
  { destruct (Dayjs.matches tz inst t token) as [p|]; [|exact Hz].
    destruct (Dayjs.piece_truthy p) eqn:Hp; [|exact Hz].
    now apply piece_to_string_truthy. }
  destruct group1 as [[|c g]|]; try exact Hm. discriminate.
Qed.

Lemma replace_format_nonempty (f : string -> option string -> string) (s : string) :
  (forall m g, f m g <> "") -> s <> "" -> Dayjs.replace_format f s <> "".
Proof.
  intros Hf Hs. unfold Dayjs.replace_format.
  destruct s as [|c r]; [congruence|].
  cbn [Dayjs.replace_from].
  destruct (Dayjs.match_at (String c r)) as [[m g1]|].
  - apply append_nonempty_l, Hf.
  - discriminate.
Qed.

(** Formatting a valid instance with a String pattern returns normally,
    and a non-empty pattern gives a non-empty text. *)
Lemma format_valid_pattern (tz : TimeZone) (inst : Dayjs.Dayjs) (t : Z)
    (c : ascii) (pattern : string) :
  Dayjs.d inst = Some t ->
  exists text,
    Dayjs.format tz inst (JsString (String c pattern)) = Normal text /\ text <> "".
Proof.
  intros Hd. unfold Dayjs.format. rewrite Hd.
  eexists; split; [reflexivity|].
  apply replace_format_nonempty; [|discriminate].
  intros m g. apply format_token_nonempty.
Qed.

Lemma js_or_optional_format (format : option string) :
  js_or (optional_format format) (JsString DEFAULT_FORMAT)
  = JsString (applicable_pattern format).
Proof. destruct format as [[|c s]|]; reflexivity. Qed.

Lemma applicable_pattern_nonempty (format : option string) :
  exists c s, applicable_pattern format = String c s.
Proof. destruct format as [[|c s]|]; simpl; eauto. Qed.

(** [dayjs.unix] returns normally except on Symbols and BigInts. *)
Lemma unix_number_like (value : JsValue) :
  ToBoolean value = true ->
  symbol_or_nonzero_bigint value = false ->
  exists n, Dayjs.unix value = Normal (Dayjs.dayjs_of_number n).
Proof.
  destruct value; simpl; intros Ht Hs; try discriminate;
    try (eexists; reflexivity).
  rewrite Ht in Hs. discriminate.
Qed.

(** The shape of every normal run of [formatTimeStampValue] with an
    optional pattern. *)
Lemma formatTimeStampValue_cases (tz : TimeZone) (value : JsValue)
    (format : option string) :
  symbol_or_nonzero_bigint value = false ->
  (ToBoolean value && parses_to_valid value = false
   /\ formatTimeStampValue tz value (optional_format format) = Normal "")
  \/ (ToBoolean value && parses_to_valid value = true
      /\ exists text,
           formatTimeStampValue tz value (optional_format format) = Normal text
           /\ text <> "").
Proof.
  intros Hs. unfold formatTimeStampValue, parses_to_valid.
  destruct (ToBoolean value) eqn:Ht; [|left; split; reflexivity].
  destruct (unix_number_like value Ht Hs) as [n ->].
  rewrite js_or_optional_format. cbn [cbind andb].
  destruct (Dayjs.isValid (Dayjs.clone (Dayjs.dayjs_of_number n))) eqn:Hv.
  - right. split; [reflexivity|].
    destruct (applicable_pattern_nonempty format) as (c & s & ->).
    unfold Dayjs.isValid, Dayjs.clone in Hv. cbn [Dayjs.d] in Hv.
    destruct (Dayjs.d (Dayjs.dayjs_of_number n)) as [t|] eqn:Hd; [|discriminate].
    apply (format_valid_pattern tz _ t). exact Hd.
  - left. split; reflexivity.
Qed.

(** With an optional pattern, the Symbols and non-zero BigInts are exactly
    the values on which [formatTimeStampValue] throws. *)
Lemma formatTimeStampValue_normal_iff (tz : TimeZone) (value : JsValue)
    (format : option string) :
  isNormal (formatTimeStampValue tz value (optional_format format))
  = negb (symbol_or_nonzero_bigint value).
Proof.
  destruct (symbol_or_nonzero_bigint value) eqn:Hs.
  - unfold formatTimeStampValue.
    destruct value; try discriminate Hs; simpl in Hs |- *.
    + reflexivity.
    + now rewrite Hs.
  - destruct (formatTimeStampValue_cases tz value format Hs)
      as [[_ ->] | [_ (text & -> & _)]]; reflexivity.
Qed.

(** *** Calendar arithmetic

    [YearFromTime] is the function of ECMA-262: the year whose first day is
    the last one not after [Day t]; day, month and date stay in range. *)

Lemma DayFromYear_step (y : Z) : DayFromYear (y + 1) = DayFromYear y + DaysInYear y.
Proof.
  unfold DayFromYear, DaysInYear.
  destruct (y mod 4 =? 0) eqn:H4; destruct (y mod 100 =? 0) eqn:H100;
    destruct (y mod 400 =? 0) eqn:H400; cbn [negb];
    rewrite ?Z.eqb_eq, ?Z.eqb_neq in *; Z.div_mod_to_equations; lia.
Qed.

Lemma YearFromTime_spec (t : Z) :
  DayFromYear (YearFromTime t) <= Day t < DayFromYear (YearFromTime t + 1).
Proof.
  unfold YearFromTime.
  set (day := Day t). clearbody day.
  set (y := 1970 + day * 400 / 146097).
  destruct (DayFromYear (y + 1) <=? day) eqn:H1;
    [|destruct (day <? DayFromYear y) eqn:H2];
    rewrite ?Z.leb_le, ?Z.leb_gt, ?Z.ltb_lt, ?Z.ltb_ge in *;
    unfold DayFromYear in *; subst y; Z.div_mod_to_equations; lia.
Qed.

Lemma DayWithinYear_range (t : Z) :
  0 <= DayWithinYear t < 365 + InLeapYear t.
Proof.
  unfold DayWithinYear, InLeapYear.
  assert (H := YearFromTime_spec t).
  rewrite DayFromYear_step in H.
  assert (Hd : DaysInYear (YearFromTime t) = 365 \/ DaysInYear (YearFromTime t) = 366).
  { unfold DaysInYear. repeat (destruct (negb _); auto). }
  destruct Hd as [Hd | Hd]; rewrite Hd in *; simpl; lia.
Qed.

Lemma MonthFromTime_range (t : Z) : 0 <= MonthFromTime t <= 11.
Proof.
  unfold MonthFromTime.
  repeat match goal with |- context [if ?b then _ else _] => destruct b end; lia.
Qed.

Lemma DateFromTime_range (t : Z) : 1 <= DateFromTime t <= 31.
Proof.
  assert (Hd := DayWithinYear_range t).
  assert (Hl : InLeapYear t = 0 \/ InLeapYear t = 1).
  { unfold InLeapYear. destruct (_ =? _); auto. }
  unfold DateFromTime, MonthFromTime.
  set (d := DayWithinYear t) in *. set (l := InLeapYear t) in *.
  clearbody d l.
  repeat match goal with
         | |- context [if ?a <? ?b then _ else _] =>
             destruct (Z.ltb_spec a b)
         end; lia.
Qed.

Lemma TimeClip_range (x : JsNumber) (t : Z) :
  TimeClip x = Some t -> - maxTime <= t <= maxTime.
Proof.
  unfold TimeClip, maxTime.
  destruct x as [s|s| |s m e]; try discriminate.
  - intros [= <-]. lia.
  - destruct (Z.leb_spec 0 e) as [He | He].
    + destruct (Z.ltb_spec 8640000000000000 (Z.pos m * 2 ^ e)); [discriminate|].
      intros [= <-]. destruct s; lia.
    + destruct (Z.ltb_spec (8640000000000000 * 2 ^ (- e)) (Z.pos m)); [discriminate|].
      intros [= <-].
      assert (Hp : 0 < 2 ^ (- e)) by (apply Z.pow_pos_nonneg; lia).
      assert (Hq : 0 <= Z.pos m / 2 ^ (- e) <= 8640000000000000).
      { split; [apply Z.div_pos; lia|].
        apply Z.div_le_upper_bound; lia. }
      destruct s; lia.
Qed.

(** *** Scanning a pattern *)

Lemma span_not_close_app (s : string) :
  let '(body, rest) := Dayjs.span_not_close s in
  s = (body ++ rest)%string
  /\ (rest = "" \/ exists r, rest = String "]" r).
Proof.
  induction s as [|c r IH]; simpl.
  - split; [reflexivity | now left].
  - destruct (Ascii.eqb_spec c "]") as [-> | Hc].
    + split; [reflexivity | right; eauto].
    + destruct (Dayjs.span_not_close r) as [body rest].
      destruct IH as [-> Hrest]. split; [reflexivity | exact Hrest].
Qed.

Lemma prefix_repeat_run (c : ascii) (s : string) (n : nat) :
  (n <= Dayjs.run_length c s)%nat ->
  String.prefix (Dayjs.repeat_string (String c "") n) s = true.
Proof.
  revert s. induction n as [|n IH]; intros s Hn; simpl.
  - now destruct s.
  - destruct s as [|c' r]; simpl in Hn; [lia|].
    destruct (Ascii.eqb_spec c c') as [<- | Hc]; [|lia].
    simpl. destruct (ascii_dec c c); [|congruence].
    apply IH. lia.
Qed.

Lemma prefix_app_l (a b : string) : String.prefix a (a ++ b) = true.
Proof.
  induction a as [|c a IH].
  - now destruct b.
  - change (String.prefix (String c a) (String c (a ++ b)) = true).
    simpl. destruct (ascii_dec c c); [exact IH | congruence].
Qed.

Lemma prefix_app_app (a b c : string) :
  String.prefix (a ++ b) (a ++ (b ++ c)) = true.
Proof.
  induction a as [|x a IH].
  - change (String.prefix b (b ++ c) = true). apply prefix_app_l.
  - change (String.prefix (String x (a ++ b)) (String x (a ++ (b ++ c))) = true).
    simpl. destruct (ascii_dec x x); [exact IH | congruence].
Qed.

(** A match starts at the scanned position and is not empty, so that the
    scan of [replace_from] resumes right after it. *)
Lemma match_at_prefix (s m : string) (g1 : option string) :
  Dayjs.match_at s = Some (m, g1) ->
  String.prefix m s = true /\ m <> "".
Proof.
  unfold Dayjs.match_at. destruct s as [|c r]; [discriminate|].
  destruct (Ascii.eqb_spec c "[") as [-> | Hc].
  - assert (H := span_not_close_app r).
    destruct (Dayjs.span_not_close r) as [body rest].
    destruct H as [-> Hrest].
    destruct body as [|b body]; [discriminate|].
    destruct rest as [|c' rest]; [discriminate|].
    destruct Hrest as [Hrest | [r' [= -> ->]]]; [discriminate|].
    intros [= <- <-]. split; [|discriminate].
    apply (prefix_app_app (String "[" (String b body)) "]" r').
  - destruct (Dayjs.token_max c) as [n|] eqn:Hn.
    + intros [= <- <-]. split.
      * apply prefix_repeat_run, Nat.le_min_r.
      * assert (Hn1 : (1 <= n)%nat).
        { unfold Dayjs.token_max in Hn.
          repeat match type of Hn with
                 | (if ?b then _ else _) = _ => destruct b
                 end; inversion Hn; lia. }
        cbn [Dayjs.run_length]. rewrite Ascii.eqb_refl.
        destruct n as [|n']; [lia|].
        cbn [Nat.min Dayjs.repeat_string].
        apply append_nonempty_l. discriminate.
    + destruct (String.prefix "SSS" (String c r)) eqn:Hp; [|discriminate].
      intros [= <- <-]. split; [exact Hp | discriminate].
Qed.

(** ** formatTimeStampValue *)

(** C1, as stated, fails: a Symbol is truthy and [dayjs.unix] multiplies
    it by 1000, which throws a [TypeError] that nothing catches. *)
Lemma formatTimeStampValue_symbol_throws :
  formatTimeStampValue UTC (JsSymbol "ts") (optional_format None)
  = Throw (TypeError "Cannot convert a Symbol value to a number")
  /\ ~ (forall value : JsValue,
          exists text, formatTimeStampValue UTC value (optional_format None) = Normal text).
Proof.
  split; [reflexivity|].
  intros H. destruct (H (JsSymbol "ts")) as [text Ht]. discriminate Ht.
Qed.

(** C1 (amended): for every input value other than a Symbol or a non-zero
    BigInt, every host time zone and every optional String pattern,
    [formatTimeStampValue] returns normally; when the value does not parse
    into a valid calendar timestamp the result is the empty string, as it
    is for the string [not-a-number]. *)
Theorem formatTimeStampValue_no_throw (tz : TimeZone) (value : JsValue)
    (format : option string) :
  symbol_or_nonzero_bigint value = false ->
  (exists text,
     formatTimeStampValue tz value (optional_format format) = Normal text
     /\ (parses_to_valid value = false -> text = ""))
  /\ formatTimeStampValue tz (JsString "not-a-number") (optional_format format)
     = Normal "".
Proof.
  intros Hs. split.
  - destruct (formatTimeStampValue_cases tz value format Hs)
      as [[_ ->] | [Hv (text & -> & _)]].
    + exists "". split; [reflexivity | tauto].
    + exists text. split; [reflexivity|].
      intros Hp. rewrite Hp, andb_false_r in Hv. discriminate.
  - destruct (formatTimeStampValue_cases tz (JsString "not-a-number") format eq_refl)
      as [[_ ->] | [Hv _]]; [reflexivity | discriminate Hv].
Qed.

Lemma formatTimeStampValue_no_throw_witness :
  symbol_or_nonzero_bigint (JsString "not-a-number") = false
  /\ (exists text,
        formatTimeStampValue UTC (JsString "not-a-number") (optional_format None)
        = Normal text
        /\ (parses_to_valid (JsString "not-a-number") = false -> text = ""))
  /\ formatTimeStampValue UTC (JsString "not-a-number") (optional_format None)
     = Normal "".
Proof.
  split; [reflexivity|].
  apply (formatTimeStampValue_no_throw UTC (JsString "not-a-number") None).
  reflexivity.
Defined.

(** C2: for every falsy value (the empty string, null, undefined, the
    number 0 among them) and whatever the second argument is,
    [formatTimeStampValue] returns the empty string; neither the parse nor
    the formatting is reached, so nothing can throw. *)
Theorem formatTimeStampValue_falsy (tz : TimeZone) (value format : JsValue) :
  ToBoolean value = false ->
  formatTimeStampValue tz value format = Normal "".
Proof. intros Hf. unfold formatTimeStampValue. now rewrite Hf. Qed.

Lemma formatTimeStampValue_falsy_witness :
  (ToBoolean (JsString "") = false
   /\ formatTimeStampValue UTC (JsString "") JsUndefined = Normal "")
  /\ (ToBoolean JsNull = false
      /\ formatTimeStampValue UTC JsNull (JsString "YYYY") = Normal "")
  /\ (ToBoolean JsUndefined = false
      /\ formatTimeStampValue UTC JsUndefined JsUndefined = Normal "")
  /\ (ToBoolean (JsNumberV (number_of_Z 0)) = false
      /\ formatTimeStampValue UTC (JsNumberV (number_of_Z 0)) (JsBoolean true)
         = Normal "").
Proof.
  split; [split; [reflexivity|]|split; [split; [reflexivity|]|split; split; [reflexivity| |reflexivity|]]].
  - exact (formatTimeStampValue_falsy UTC (JsString "") JsUndefined eq_refl).
  - exact (formatTimeStampValue_falsy UTC JsNull (JsString "YYYY") eq_refl).
  - exact (formatTimeStampValue_falsy UTC JsUndefined JsUndefined eq_refl).
  - exact (formatTimeStampValue_falsy UTC (JsNumberV (number_of_Z 0)) (JsBoolean true) eq_refl).
Defined.

(** C3: in the UTC time zone and without a format argument,
    [formatTimeStampValue("1700000000")] is [11/14/23 10:13:20 pm], the
    rendering of 2023-11-14T22:13:20 UTC under [MM/DD/YY hh:mm:ss a]. *)
Theorem formatTimeStampValue_default_utc :
  formatTimeStampValue UTC (JsString "1700000000") JsUndefined
  = Normal "11/14/23 10:13:20 pm"
  /\ DEFAULT_FORMAT = "MM/DD/YY hh:mm:ss a"
  /\ Dayjs.unix (JsString "1700000000")
     = Normal (Dayjs.mkDayjs (Some 1700000000000) false)
  /\ (YearFromTime 1700000000000, MonthFromTime 1700000000000 + 1,
      DateFromTime 1700000000000, HourFromTime 1700000000000,
      MinFromTime 1700000000000, SecFromTime 1700000000000)
     = (2023, 11, 14, 22, 13, 20).
Proof. repeat split; vm_compute; reflexivity. Qed.

(** C8: a custom pattern as second argument changes the rendering: in
    the UTC time zone [formatTimeStampValue("1700000000", "YYYY-MM-DD")]
    is [2023-11-14], not the default rendering. *)
Theorem formatTimeStampValue_custom_utc :
  formatTimeStampValue UTC (JsString "1700000000") (JsString "YYYY-MM-DD")
  = Normal "2023-11-14"
  /\ formatTimeStampValue UTC (JsString "1700000000") (JsString "YYYY-MM-DD")
     <> formatTimeStampValue UTC (JsString "1700000000") JsUndefined.
Proof. split; [vm_compute; reflexivity | vm_compute; discriminate]. Qed.

(** C9: the string [0] is truthy: [formatTimeStampValue("0")] parses it as
    epoch second 0 and returns that instant, 1970-01-01T00:00:00 UTC,
    rendered in local time with the applicable pattern; the result is
    never the empty string. *)
Theorem formatTimeStampValue_zero_string (tz : TimeZone) (format : option string) :
  ToBoolean (JsString "0") = true
  /\ Dayjs.unix (JsString "0") = Normal (Dayjs.mkDayjs (Some 0) false)
  /\ formatTimeStampValue tz (JsString "0") (optional_format format)
     = Dayjs.format tz (Dayjs.mkDayjs (Some 0) false)
         (JsString (applicable_pattern format))
  /\ (exists text,
        formatTimeStampValue tz (JsString "0") (optional_format format) = Normal text
        /\ text <> "")
  /\ formatTimeStampValue UTC (JsString "0") JsUndefined = Normal "01/01/70 12:00:00 am"
  /\ formatTimeStampValue UTC (JsString "0") (JsString "YYYY-MM-DD") = Normal "1970-01-01".
Proof.
  split; [reflexivity|]. split; [reflexivity|].
  assert (Hrun : formatTimeStampValue tz (JsString "0") (optional_format format)
                 = Dayjs.format tz (Dayjs.mkDayjs (Some 0) false)
                     (JsString (applicable_pattern format))).
  { unfold formatTimeStampValue. rewrite js_or_optional_format. reflexivity. }
  split; [exact Hrun|]. split.
  - rewrite Hrun.
    destruct (applicable_pattern_nonempty format) as (c & s & ->).
    apply (format_valid_pattern tz _ 0). reflexivity.
  - split; vm_compute; reflexivity.
Qed.

(** ** formatTimeStampElement *)

Lemma dataset_not_symbol (el : Element) (property : string) :
  symbol_or_nonzero_bigint (dataset el property) = false.
Proof. unfold dataset. now destruct (attributes el !! dataset_attribute property). Qed.

Lemma dataset_timeformat (el : Element) :
  js_or (dataset el "timeformat") (JsString DEFAULT_FORMAT)
  = JsString (applicable_pattern (data_attribute el "timeformat")).
Proof.
  unfold dataset, data_attribute.
  change (dataset_attribute "timeformat") with "data-timeformat".
  change ("data-" ++ "timeformat")%string with "data-timeformat".
  now destruct (attributes el !! "data-timeformat") as [[|c s]|].
Qed.

(** The call made by the element updater and the use of its result. *)
Lemma formatTimeStampElement_unfold (tz : TimeZone) (el : Element) :
  formatTimeStampElement tz el
  = if ToBoolean (dataset el "timestamp") then
      with_formatted el
        (formatTimeStampValue tz (dataset el "timestamp")
           (JsString (applicable_pattern (data_attribute el "timeformat"))))
    else Normal el.
Proof.
  unfold formatTimeStampElement. rewrite dataset_timeformat.
  destruct (ToBoolean (dataset el "timestamp")); [|reflexivity].
  destruct (formatTimeStampValue _ _ _) as [[|c text]|e]; reflexivity.
Qed.

(** The updater returns normally, with the element as it was or with a
    new, non-empty text. *)
Lemma formatTimeStampElement_result (tz : TimeZone) (el : Element) :
  formatTimeStampElement tz el = Normal el
  \/ exists c text,
       formatTimeStampElement tz el = Normal (set_innerText el (String c text)).
Proof.
  rewrite formatTimeStampElement_unfold.
  destruct (ToBoolean (dataset el "timestamp")); [|now left].
  destruct (formatTimeStampValue_cases tz (dataset el "timestamp")
              (Some (applicable_pattern (data_attribute el "timeformat")))
              (dataset_not_symbol el "timestamp"))
    as [[_ Hrun] | [_ (text & Hrun & Hne)]];
    cbn [optional_format] in Hrun; rewrite Hrun.
  - now left.
  - destruct text as [|c text]; [congruence|]. right. eauto.
Qed.

(** C4: when the timestamp data attribute is absent or falsy, or holds a
    value for which [formatTimeStampValue] (under any optional pattern)
    returns the empty string, the updater leaves the element as it was;
    and whenever the shown text does change, it has become the non-empty
    result of [formatTimeStampValue]. *)
Theorem formatTimeStampElement_keeps_text (tz : TimeZone) (el : Element) :
  (data_attribute el "timestamp" = None
   \/ ToBoolean (dataset el "timestamp") = false
   \/ (exists format,
         formatTimeStampValue tz (dataset el "timestamp") (optional_format format)
         = Normal "") ->
   formatTimeStampElement tz el = Normal el)
  /\ (forall el',
        formatTimeStampElement tz el = Normal el' ->
        innerText el' <> innerText el ->
        exists text,
          text <> ""
          /\ formatTimeStampValue tz (dataset el "timestamp")
               (JsString (applicable_pattern (data_attribute el "timeformat")))
             = Normal text
          /\ innerText el' = text).
Proof.
  rewrite formatTimeStampElement_unfold. split.
  - intros H.
    destruct (ToBoolean (dataset el "timestamp")) eqn:Ht; [|reflexivity].
    destruct H as [Habs | [Hfalsy | [format Hempty]]].
    + unfold data_attribute in Habs. unfold dataset in Ht.
      change (dataset_attribute "timestamp") with ("data-" ++ "timestamp")%string in Ht.
      rewrite Habs in Ht. discriminate.
    + discriminate.
    + assert (Hs := dataset_not_symbol el "timestamp").
      destruct (formatTimeStampValue_cases tz _ format Hs)
        as [[Hv _] | [_ (text & Hrun & Hne)]].
      * destruct (formatTimeStampValue_cases tz _
                    (Some (applicable_pattern (data_attribute el "timeformat"))) Hs)
          as [[_ Hrun] | [Hv' _]]; [|congruence].
        cbn [optional_format] in Hrun. now rewrite Hrun.
      * rewrite Hempty in Hrun. congruence.
  - intros el' Hrun Hchanged.
    destruct (ToBoolean (dataset el "timestamp")); [|congruence].
    destruct (formatTimeStampValue _ _ _) as [[|c text]|e];
      cbn [with_formatted] in Hrun; try congruence.
    injection Hrun as <-. exists (String c text).
    split; [discriminate | split; reflexivity].
Qed.

Lemma formatTimeStampElement_keeps_text_witness :
  let el := mkElement "span" {[ "data-timestamp" := "not-a-number" ]} "pending" in
  formatTimeStampElement UTC el = Normal el.
Proof.
  intros el.
  apply (proj1 (formatTimeStampElement_keeps_text UTC el)).
  right. right. exists None. reflexivity.
Defined.

(** C10: a call of [formatTimeStampElement] always returns normally and
    changes nothing of the element but, at most, its [innerText]: the tag
    and every attribute, the timestamp and format data attributes among
    them, are as before. *)
Theorem formatTimeStampElement_frame (tz : TimeZone) (el : Element) :
  exists el',
    formatTimeStampElement tz el = Normal el'
    /\ tagName el' = tagName el
    /\ attributes el' = attributes el
    /\ dataset el' "timestamp" = dataset el "timestamp"
    /\ dataset el' "timeformat" = dataset el "timeformat".
Proof.
  destruct (formatTimeStampElement_result tz el) as [-> | (c & text & ->)].
  - exists el. tauto.
  - exists (set_innerText el (String c text)). repeat split.
Qed.

(** C7, as stated, fails: the updater does not read a data attribute
    called [time-format].  An element carrying [data-time-format] is
    rendered with the default pattern. *)
Lemma formatTimeStampElement_ignores_time_format :
  let el := mkElement "span"
              {[ "data-timestamp" := "1700000000"; "data-time-format" := "YYYY-MM-DD" ]}
              "" in
  ToBoolean (dataset el "timestamp") = true
  /\ data_attribute el "time-format" = Some "YYYY-MM-DD"
  /\ formatTimeStampElement UTC el = Normal (set_innerText el "11/14/23 10:13:20 pm")
  /\ with_formatted el
       (formatTimeStampValue UTC (dataset el "timestamp") (JsString "YYYY-MM-DD"))
     = Normal (set_innerText el "2023-11-14")
  /\ formatTimeStampElement UTC el
     <> with_formatted el
          (formatTimeStampValue UTC (dataset el "timestamp") (JsString "YYYY-MM-DD")).
Proof.
  intros el.
  assert (H1 : formatTimeStampElement UTC el
               = Normal (set_innerText el "11/14/23 10:13:20 pm"))
    by (vm_compute; reflexivity).
  assert (H2 : with_formatted el
                 (formatTimeStampValue UTC (dataset el "timestamp") (JsString "YYYY-MM-DD"))
               = Normal (set_innerText el "2023-11-14"))
    by (vm_compute; reflexivity).
  repeat split; try reflexivity; try assumption.
  rewrite H1, H2. intros H. injection H as H. discriminate H.
Qed.

(** C7 (amended): for an element with a truthy timestamp data attribute,
    the updater reads the data attribute [timeformat] (the content
    attribute [data-timeformat]); when it is present and non-empty its
    value is the pattern passed to [formatTimeStampValue], otherwise the
    default pattern [MM/DD/YY hh:mm:ss a] is passed. *)
Theorem formatTimeStampElement_pattern (tz : TimeZone) (el : Element) :
  ToBoolean (dataset el "timestamp") = true ->
  (forall c pattern,
     data_attribute el "timeformat" = Some (String c pattern) ->
     formatTimeStampElement tz el
     = with_formatted el
         (formatTimeStampValue tz (dataset el "timestamp") (JsString (String c pattern))))
  /\ (data_attribute el "timeformat" = None
      \/ data_attribute el "timeformat" = Some "" ->
      formatTimeStampElement tz el
      = with_formatted el
          (formatTimeStampValue tz (dataset el "timestamp")
             (JsString "MM/DD/YY hh:mm:ss a"))).
Proof.
  intros Ht. rewrite formatTimeStampElement_unfold, Ht. split.
  - intros c pattern ->. reflexivity.
  - intros [-> | ->]; reflexivity.
Qed.

Lemma formatTimeStampElement_pattern_witness :
  let el := mkElement "span"
              {[ "data-timestamp" := "1700000000"; "data-timeformat" := "YYYY-MM-DD" ]}
              "" in
  ToBoolean (dataset el "timestamp") = true
  /\ formatTimeStampElement UTC el
     = with_formatted el
         (formatTimeStampValue UTC (dataset el "timestamp") (JsString "YYYY-MM-DD")).
Proof.
  intros el. split; [reflexivity|].
  apply (proj1 (formatTimeStampElement_pattern UTC el eq_refl) "Y"%char "YYY-MM-DD").
  reflexivity.
Defined.

(** ** htmxAlert and the responseError handler *)

Lemma property_or_present (alert : Alert) (key fallback : string) (c : ascii)
    (v : string) :
  alert !! key = Some (String c v) -> property_or alert key fallback = String c v.
Proof. unfold property_or. now intros ->. Qed.

Lemma property_or_missing (alert : Alert) (key fallback : string) :
  alert !! key = None \/ alert !! key = Some "" ->
  property_or alert key fallback = fallback.
Proof. unfold property_or. now intros [-> | ->]. Qed.

Lemma htmxAlert_container (alert : Alert) (doc : Document) :
  is_Some (alertContainer doc) ->
  htmxAlert alert doc
  = Normal (mkDocument
              (Some (alert_markup (property_or alert "severity" "danger")
                       (property_or alert "message" "Oof. Unknown Error Occurred.")))).
Proof. intros [old Hold]. unfold htmxAlert. now rewrite Hold. Qed.

Lemma htmxAlert_missing_container (alert : Alert) (doc : Document) :
  alertContainer doc = None ->
  htmxAlert alert doc
  = Throw (TypeError "Cannot set properties of null (setting 'innerHTML')").
Proof. intros Hnone. unfold htmxAlert. now rewrite Hnone. Qed.

(** C5, as stated, fails: the handler does not look at the event.  A
    failed response whose event carries the payload
    [{message: "Quota exceeded", severity: "warning"}] is rendered with
    the default message and the default severity, although [htmxAlert]
    given that payload would show both. *)
Lemma onResponseError_ignores_payload :
  let alert : Alert := {[ "message" := "Quota exceeded"; "severity" := "warning" ]} in
  let evt := mkEvent (Some alert) in
  let doc := mkDocument (Some "") in
  onResponseError evt doc
  = Normal (mkDocument (Some (alert_markup "danger" "Oof. Unknown Error Occurred.")))
  /\ occurs_in "Quota exceeded" (alert_markup "danger" "Oof. Unknown Error Occurred.")
     = false
  /\ occurs_in "alert-warning" (alert_markup "danger" "Oof. Unknown Error Occurred.")
     = false
  /\ htmxAlert alert doc
     = Normal (mkDocument (Some (alert_markup "warning" "Quota exceeded")))
  /\ occurs_in "Quota exceeded" (alert_markup "warning" "Quota exceeded") = true
  /\ occurs_in "alert-warning" (alert_markup "warning" "Quota exceeded") = true
  /\ onResponseError evt doc <> htmxAlert alert doc.
Proof.
  intros alert evt doc.
  assert (H1 : onResponseError evt doc
               = Normal (mkDocument
                           (Some (alert_markup "danger" "Oof. Unknown Error Occurred."))))
    by reflexivity.
  assert (H2 : htmxAlert alert doc
               = Normal (mkDocument (Some (alert_markup "warning" "Quota exceeded"))))
    by (vm_compute; reflexivity).
  split; [exact H1|].
  split; [vm_compute; reflexivity|]. split; [vm_compute; reflexivity|].
  split; [exact H2|].
  split; [vm_compute; reflexivity|]. split; [vm_compute; reflexivity|].
  rewrite H1, H2. intros H. vm_compute in H. discriminate H.
Qed.

(** C5 (amended): on a page that has the element [alert-container],
    [htmxAlert] puts into it the template with the non-empty message and
    severity of the alert object it is given in place of the defaults,
    each independently of the other; the responseError handler never
    passes the event's payload to it: for every event it renders
    [htmxAlert({})], the default message with the default severity
    danger. *)
Theorem htmxAlert_overrides_handler_defaults (evt : ResponseErrorEvent)
    (alert : Alert) (doc : Document) :
  is_Some (alertContainer doc) ->
  let rendered := fun severity message : string =>
    Normal (mkDocument (Some (
      newline
      ++ "    <div class=" ++ quote ++ "alert alert-dismissible alert-" ++ severity
      ++ " alert-float" ++ quote ++ ">" ++ newline
      ++ "        <button type=" ++ quote ++ "button" ++ quote
      ++ " class=" ++ quote ++ "btn-close" ++ quote
      ++ " data-bs-dismiss=" ++ quote ++ "alert" ++ quote ++ "></button>" ++ newline
      ++ "        " ++ message ++ newline
      ++ "    </div>"))) in
  (forall c m c' s,
     alert !! "message" = Some (String c m) ->
     alert !! "severity" = Some (String c' s) ->
     htmxAlert alert doc = rendered (String c' s) (String c m))
  /\ (forall c m,
        alert !! "message" = Some (String c m) ->
        alert !! "severity" = None \/ alert !! "severity" = Some "" ->
        htmxAlert alert doc = rendered "danger" (String c m))
  /\ (forall c s,
        alert !! "severity" = Some (String c s) ->
        alert !! "message" = None \/ alert !! "message" = Some "" ->
        htmxAlert alert doc = rendered (String c s) "Oof. Unknown Error Occurred.")
  /\ onResponseError evt doc = htmxAlert ∅ doc
  /\ onResponseError evt doc = rendered "danger" "Oof. Unknown Error Occurred.".
Proof.
  intros Hc rendered. subst rendered. cbv beta.
  repeat split.
  - intros c m c' s Hm Hs. rewrite (htmxAlert_container alert doc Hc).
    now rewrite (property_or_present _ _ _ _ _ Hm), (property_or_present _ _ _ _ _ Hs).
  - intros c m Hm Hs. rewrite (htmxAlert_container alert doc Hc).
    now rewrite (property_or_present _ _ _ _ _ Hm), (property_or_missing _ _ _ Hs).
  - intros c s Hs Hm. rewrite (htmxAlert_container alert doc Hc).
    now rewrite (property_or_present _ _ _ _ _ Hs), (property_or_missing _ _ _ Hm).
  - unfold onResponseError. now rewrite (htmxAlert_container ∅ doc Hc).
Qed.

Lemma htmxAlert_overrides_handler_defaults_witness :
  htmxAlert {[ "message" := "Quota exceeded"; "severity" := "warning" ]}
            (mkDocument (Some "old"))
  = Normal (mkDocument (Some (
      newline
      ++ "    <div class=" ++ quote ++ "alert alert-dismissible alert-" ++ "warning"
      ++ " alert-float" ++ quote ++ ">" ++ newline
      ++ "        <button type=" ++ quote ++ "button" ++ quote
      ++ " class=" ++ quote ++ "btn-close" ++ quote
      ++ " data-bs-dismiss=" ++ quote ++ "alert" ++ quote ++ "></button>" ++ newline
      ++ "        " ++ "Quota exceeded" ++ newline
      ++ "    </div>")))
  /\ onResponseError
       (mkEvent (Some {[ "message" := "Quota exceeded"; "severity" := "warning" ]}))
       (mkDocument (Some "old"))
     = Normal (mkDocument (Some (
         newline
         ++ "    <div class=" ++ quote ++ "alert alert-dismissible alert-" ++ "danger"
         ++ " alert-float" ++ quote ++ ">" ++ newline
         ++ "        <button type=" ++ quote ++ "button" ++ quote
         ++ " class=" ++ quote ++ "btn-close" ++ quote
         ++ " data-bs-dismiss=" ++ quote ++ "alert" ++ quote ++ "></button>" ++ newline
         ++ "        " ++ "Oof. Unknown Error Occurred." ++ newline
         ++ "    </div>"))).
Proof.
  assert (Hc : is_Some (alertContainer (mkDocument (Some "old"))))
    by (eexists; reflexivity).
  destruct (htmxAlert_overrides_handler_defaults
              (mkEvent (Some {[ "message" := "Quota exceeded"; "severity" := "warning" ]}))
              {[ "message" := "Quota exceeded"; "severity" := "warning" ]}
              (mkDocument (Some "old")) Hc)
    as (Hboth & _ & _ & _ & Hdefault).
  split; [|exact Hdefault].
  apply (Hboth "Q"%char "uota exceeded" "w"%char "arning"); reflexivity.
Defined.

(** C6, as stated, fails on a page without the element
    [alert-container]: the handler throws a TypeError and renders no
    alert. *)
Lemma onResponseError_without_container :
  payload (mkEvent None) = None
  /\ onResponseError (mkEvent None) (mkDocument None)
     = Throw (TypeError "Cannot set properties of null (setting 'innerHTML')")
  /\ ~ (exists doc', onResponseError (mkEvent None) (mkDocument None) = Normal doc').
Proof.
  split; [reflexivity|]. split; [reflexivity|].
  intros [doc' H]. discriminate H.
Qed.

(** C6 (amended): on a page that has the element [alert-container], a
    failed response whose event carries no alert payload makes the
    handler put into that element exactly the dismissible alert with the
    severity danger and the message [Oof. Unknown Error Occurred.]. *)
Theorem onResponseError_default_alert (evt : ResponseErrorEvent) (doc : Document) :
  payload evt = None ->
  is_Some (alertContainer doc) ->
  onResponseError evt doc
  = Normal (mkDocument (Some (
      newline
      ++ "    <div class=" ++ quote
      ++ "alert alert-dismissible alert-danger alert-float" ++ quote ++ ">" ++ newline
      ++ "        <button type=" ++ quote ++ "button" ++ quote
      ++ " class=" ++ quote ++ "btn-close" ++ quote
      ++ " data-bs-dismiss=" ++ quote ++ "alert" ++ quote ++ "></button>" ++ newline
      ++ "        Oof. Unknown Error Occurred." ++ newline
      ++ "    </div>")))
  /\ occurs_in "alert alert-dismissible alert-danger alert-float"
       (alert_markup "danger" "Oof. Unknown Error Occurred.") = true
  /\ occurs_in "data-bs-dismiss="
       (alert_markup "danger" "Oof. Unknown Error Occurred.") = true
  /\ occurs_in "Oof. Unknown Error Occurred."
       (alert_markup "danger" "Oof. Unknown Error Occurred.") = true.
Proof.
  intros _ Hc. split.
  - unfold onResponseError. rewrite (htmxAlert_container ∅ doc Hc).
    vm_compute. reflexivity.
  - repeat split; vm_compute; reflexivity.
Qed.

Lemma onResponseError_default_alert_witness :
  onResponseError (mkEvent None) (mkDocument (Some "<p>old alert</p>"))
  = Normal (mkDocument (Some (
      newline
      ++ "    <div class=" ++ quote
      ++ "alert alert-dismissible alert-danger alert-float" ++ quote ++ ">" ++ newline
      ++ "        <button type=" ++ quote ++ "button" ++ quote
      ++ " class=" ++ quote ++ "btn-close" ++ quote
      ++ " data-bs-dismiss=" ++ quote ++ "alert" ++ quote ++ "></button>" ++ newline
      ++ "        Oof. Unknown Error Occurred." ++ newline
      ++ "    </div>"))).
Proof.
  apply (onResponseError_default_alert (mkEvent None)
           (mkDocument (Some "<p>old alert</p>")) eq_refl).
  eexists; reflexivity.
Defined.

(** ** Further properties of the two files *)

Lemma unix_of_numeric (value : JsValue) (n : JsNumber) :
  ToNumeric value = Normal (NumNumber n) ->
  Dayjs.unix value
  = Normal (Dayjs.dayjs_of_number (SFmul prec emax n (number_of_Z 1000))).
Proof. intros H. unfold Dayjs.unix, js_mul. rewrite H. reflexivity. Qed.

Lemma ToNumeric_number_like (value : JsValue) :
  ToBoolean value = true ->
  symbol_or_nonzero_bigint value = false ->
  exists n, ToNumeric value = Normal (NumNumber n).
Proof.
  destruct value; simpl; intros Ht Hs; try discriminate; try (eexists; reflexivity).
  rewrite Ht in Hs. discriminate.
Qed.

(** X1: a falsy format argument (undefined, null, the empty string, 0,
    false) is the same as no argument: the default pattern is used. *)
Theorem formatTimeStampValue_falsy_format (tz : TimeZone) (value format : JsValue) :
  ToBoolean format = false ->
  formatTimeStampValue tz value format
  = formatTimeStampValue tz value (JsString "MM/DD/YY hh:mm:ss a").
Proof.
  intros Hf. unfold formatTimeStampValue, js_or. rewrite Hf. reflexivity.
Qed.

Lemma formatTimeStampValue_falsy_format_witness :
  formatTimeStampValue UTC (JsString "1700000000") (JsString "")
  = formatTimeStampValue UTC (JsString "1700000000") (JsString "MM/DD/YY hh:mm:ss a")
  /\ formatTimeStampValue UTC (JsString "1700000000") JsNull
     = formatTimeStampValue UTC (JsString "1700000000") (JsString "MM/DD/YY hh:mm:ss a").
Proof.
  split.
  - exact (formatTimeStampValue_falsy_format UTC (JsString "1700000000") (JsString "") eq_refl).
  - exact (formatTimeStampValue_falsy_format UTC (JsString "1700000000") JsNull eq_refl).
Defined.

(** X2: for a value that does not parse into a valid calendar timestamp
    the format argument is never looked at: the result is the empty
    string whatever is passed as format, a non-String included. *)
Theorem formatTimeStampValue_invalid_any_format (tz : TimeZone)
    (value format : JsValue) :
  symbol_or_nonzero_bigint value = false ->
  parses_to_valid value = false ->
  formatTimeStampValue tz value format = Normal "".
Proof.
  intros Hs Hp. unfold formatTimeStampValue.
  destruct (ToBoolean value) eqn:Ht; [|reflexivity].
  destruct (unix_number_like value Ht Hs) as [n Hn].
  unfold parses_to_valid in Hp. rewrite Hn in Hp |- *.
  cbn [cbind]. now rewrite Hp.
Qed.

Lemma formatTimeStampValue_invalid_any_format_witness :
  formatTimeStampValue UTC (JsString "not-a-number") (JsNumberV (number_of_Z 5))
  = Normal ""
  /\ formatTimeStampValue UTC (JsNumberV Infinity) (JsBoolean true) = Normal "".
Proof.
  split.
  - exact (formatTimeStampValue_invalid_any_format UTC (JsString "not-a-number")
             (JsNumberV (number_of_Z 5)) eq_refl eq_refl).
  - exact (formatTimeStampValue_invalid_any_format UTC (JsNumberV Infinity)
             (JsBoolean true) eq_refl eq_refl).
Defined.

(** X3: for every value other than a Symbol or a non-zero BigInt (on
    which the call throws) and with an optional String pattern, the
    result is the empty string exactly when the value is falsy or does
    not parse into a valid calendar timestamp; neither the time zone nor
    the pattern can make a valid timestamp render as nothing. *)
Theorem formatTimeStampValue_empty_iff (tz : TimeZone) (value : JsValue)
    (format : option string) :
  symbol_or_nonzero_bigint value = false ->
  formatTimeStampValue tz value (optional_format format) = Normal ""
  <-> ToBoolean value && parses_to_valid value = false.
Proof.
  intros Hs.
  destruct (formatTimeStampValue_cases tz value format Hs)
    as [[Hv Hrun] | [Hv (text & Hrun & Hne)]]; rewrite Hrun, Hv.
  - tauto.
  - split; [intros [= ->]; congruence | discriminate].
Qed.

Lemma formatTimeStampValue_empty_iff_witness :
  formatTimeStampValue (fun _ => -300) (JsString "1e400") (optional_format (Some "YYYY"))
  = Normal ""
  /\ formatTimeStampValue (fun _ => -300) (JsString "86400") (optional_format (Some "YYYY"))
     <> Normal "".
Proof.
  split.
  - apply (formatTimeStampValue_empty_iff (fun _ => -300) (JsString "1e400")
             (Some "YYYY") eq_refl).
    reflexivity.
  - intros H.
    apply (formatTimeStampValue_empty_iff (fun _ => -300) (JsString "86400")
             (Some "YYYY") eq_refl) in H.
    discriminate H.
Defined.

(** X4: a truthy value matters only through its numeric conversion: two
    truthy values converting to the same number (a numeric string, the
    same string with blanks around it, the number itself) give the same
    result. *)
Theorem formatTimeStampValue_same_number (tz : TimeZone) (v w format : JsValue) :
  ToBoolean v = true ->
  ToBoolean w = true ->
  ToNumeric v = ToNumeric w ->
  formatTimeStampValue tz v format = formatTimeStampValue tz w format.
Proof.
  intros Hv Hw Hn. unfold formatTimeStampValue, Dayjs.unix, js_mul.
  now rewrite Hv, Hw, Hn.
Qed.

Lemma formatTimeStampValue_same_number_witness :
  formatTimeStampValue UTC (JsString " 1.7e9 ") JsUndefined
  = formatTimeStampValue UTC (JsNumberV (number_of_Z 1700000000)) JsUndefined.
Proof.
  exact (formatTimeStampValue_same_number UTC (JsString " 1.7e9 ")
           (JsNumberV (number_of_Z 1700000000)) JsUndefined eq_refl eq_refl eq_refl).
Defined.

(** X5: a non-empty result is the rendering, in local time and under the
    applicable pattern, of the instant obtained by multiplying the
    numeric value by 1000 and dropping the fraction; that instant lies
    within 8.64e15 milliseconds of the epoch. *)
Theorem formatTimeStampValue_renders_instant (tz : TimeZone) (value : JsValue)
    (format : option string) (text : string) :
  formatTimeStampValue tz value (optional_format format) = Normal text ->
  text <> "" ->
  exists n t,
    ToNumeric value = Normal (NumNumber n)
    /\ TimeClip (SFmul prec emax n (number_of_Z 1000)) = Some t
    /\ - 8640000000000000 <= t <= 8640000000000000
    /\ Dayjs.format tz (Dayjs.mkDayjs (Some t) false)
         (JsString (applicable_pattern format))
       = Normal text.
Proof.
  intros Hrun Hne. unfold formatTimeStampValue in Hrun.
  destruct (ToBoolean value) eqn:Ht; [|injection Hrun as <-; congruence].
  rewrite js_or_optional_format in Hrun.
  destruct (symbol_or_nonzero_bigint value) eqn:Hs.
  { destruct value; try discriminate Hs; discriminate Hrun. }
  destruct (ToNumeric_number_like value Ht Hs) as [n Hn].
  rewrite (unix_of_numeric value n Hn) in Hrun. cbn [cbind] in Hrun.
  unfold Dayjs.isValid, Dayjs.clone, Dayjs.local, Dayjs.dayjs_of_number in Hrun.
  cbn [Dayjs.d Dayjs.u] in Hrun.
  destruct (TimeClip (SFmul prec emax n (number_of_Z 1000))) as [t|] eqn:Hc;
    [|injection Hrun as <-; congruence].
  exists n, t. repeat split; try assumption;
    apply (TimeClip_range _ _ Hc).
Qed.

Lemma formatTimeStampValue_renders_instant_witness :
  exists n t,
    ToNumeric (JsString "1700000000.9") = Normal (NumNumber n)
    /\ TimeClip (SFmul prec emax n (number_of_Z 1000)) = Some t
    /\ - 8640000000000000 <= t <= 8640000000000000
    /\ Dayjs.format UTC (Dayjs.mkDayjs (Some t) false)
         (JsString (applicable_pattern (Some "mm:ss.SSS")))
       = Normal "13:20.900".
Proof.
  apply (formatTimeStampValue_renders_instant UTC (JsString "1700000000.9")
           (Some "mm:ss.SSS") "13:20.900").
  - vm_compute. reflexivity.
  - discriminate.
Defined.

(** What the updater returned is left as it is by a further call. *)
Lemma formatTimeStampElement_fixed (tz : TimeZone) (el el' : Element) :
  formatTimeStampElement tz el = Normal el' ->
  formatTimeStampElement tz el' = Normal el'.
Proof.
  rewrite formatTimeStampElement_unfold.
  destruct (ToBoolean (dataset el "timestamp")) eqn:Ht.
  - destruct (formatTimeStampValue tz (dataset el "timestamp")
                (JsString (applicable_pattern (data_attribute el "timeformat"))))
      as [[|c text]|e] eqn:Hv; cbn [with_formatted]; intros [= <-].
    + now rewrite formatTimeStampElement_unfold, Ht, Hv.
    + rewrite formatTimeStampElement_unfold.
      change (dataset (set_innerText el (String c text)) "timestamp")
        with (dataset el "timestamp").
      change (data_attribute (set_innerText el (String c text)) "timeformat")
        with (data_attribute el "timeformat").
      now rewrite Ht, Hv.
  - intros [= <-]. now rewrite formatTimeStampElement_unfold, Ht.
Qed.

(** X6: the updater is idempotent: calling it again on the element it
    returned changes nothing, so elements formatted on an earlier page
    load are stable under later ones. *)
Theorem formatTimeStampElement_idempotent (tz : TimeZone) (el : Element) :
  cbind (formatTimeStampElement tz el) (formatTimeStampElement tz)
  = formatTimeStampElement tz el.
Proof.
  destruct (formatTimeStampElement tz el) as [el'|e] eqn:Hrun; cbn [cbind].
  - now apply (formatTimeStampElement_fixed tz el).
  - reflexivity.
Qed.

(** ** Further properties of htmxAlert *)

Lemma htmxAlert_twice (first second : Alert) (doc : Document) :
  cbind (htmxAlert first doc) (htmxAlert second) = htmxAlert second doc.
Proof.
  unfold htmxAlert.
  destruct (alertContainer doc) as [old|]; reflexivity.
Qed.

(** X10: alerts do not pile up: an alert rendered after another one
    replaces it, and the document after two failed responses is the
    document after the last one alone. *)
Theorem htmxAlert_last_wins (first second : Alert)
    (evt1 evt2 : ResponseErrorEvent) (doc : Document) :
  cbind (htmxAlert first doc) (htmxAlert second) = htmxAlert second doc
  /\ cbind (onResponseError evt1 doc) (onResponseError evt2)
     = onResponseError evt2 doc.
Proof.
  split; [apply htmxAlert_twice|].
  unfold onResponseError. apply htmxAlert_twice.
Qed.

(** X12: the updater never reads the text an element shows: what it
    leaves is either that text, whatever it was, or one non-empty text
    fixed by the element's attributes alone. *)
Theorem formatTimeStampElement_ignores_text (tz : TimeZone) (el : Element) :
  exists outcome : option string,
    outcome <> Some ""
    /\ forall text,
         formatTimeStampElement tz (set_innerText el text)
         = Normal (set_innerText el (default text outcome)).
Proof.
  assert (Hu : forall text,
             formatTimeStampElement tz (set_innerText el text)
             = if ToBoolean (dataset el "timestamp") then
                 with_formatted (set_innerText el text)
                   (formatTimeStampValue tz (dataset el "timestamp")
                      (JsString (applicable_pattern (data_attribute el "timeformat"))))
               else Normal (set_innerText el text)).
  { intros text. now rewrite formatTimeStampElement_unfold. }
  destruct (ToBoolean (dataset el "timestamp")).
  - destruct (formatTimeStampValue_cases tz (dataset el "timestamp")
                (Some (applicable_pattern (data_attribute el "timeformat")))
                (dataset_not_symbol el "timestamp"))
      as [[_ Hrun] | [_ (formatted & Hrun & Hne)]];
      cbn [optional_format] in Hrun; rewrite Hrun in Hu.
    + exists None. split; [discriminate | exact Hu].
    + exists (Some formatted). split; [congruence|].
      intros text. rewrite Hu.
      destruct formatted as [|c formatted]; [congruence | reflexivity].
  - exists None. split; [discriminate | exact Hu].
Qed.

(** ** initTimeStamps on the tree of the page *)

Lemma Node_forall_ind (P : Node -> Prop) :
  (forall data, P (TextNode data)) ->
  P LineBreak ->
  (forall i tag attrs children,
     Forall P children -> P (ElementNode i tag attrs children)) ->
  forall n, P n.
Proof.
  intros Htext Hbreak Helem. fix IH 1.
  intros [data| |i tag attrs children]; [apply Htext | apply Hbreak |].
  apply Helem. induction children as [|c rest IHrest]; constructor.
  - apply IH.
  - exact IHrest.
Qed.

Lemma innerText_assignment_normal (tz : TimeZone) (ref : ElementRef) :
  innerText_assignment tz ref = Normal (assignment_of tz ref).
Proof.
  unfold assignment_of, innerText_assignment.
  destruct (formatTimeStampElement_result tz
              (mkElement (ref_tag ref) (ref_attributes ref) ""))
    as [-> | (c & text & ->)]; reflexivity.
Qed.

(** The assignment recorded for an element is the one the updater makes
    on its record, whatever text the element shows. *)
Lemma formatTimeStampElement_assignment (tz : TimeZone) (el : Element) :
  formatTimeStampElement tz el
  = Normal (match assignment_of tz (mkRef 1%positive (tagName el) (attributes el)) with
            | Some text => set_innerText el text
            | None => el
            end).
Proof.
  unfold assignment_of, innerText_assignment. cbn [ref_tag ref_attributes].
  rewrite !formatTimeStampElement_unfold.
  change (dataset (mkElement (tagName el) (attributes el) "") "timestamp")
    with (dataset el "timestamp").
  change (data_attribute (mkElement (tagName el) (attributes el) "") "timeformat")
    with (data_attribute el "timeformat").
  destruct (ToBoolean (dataset el "timestamp")); [|reflexivity].
  destruct (formatTimeStampValue_cases tz (dataset el "timestamp")
              (Some (applicable_pattern (data_attribute el "timeformat")))
              (dataset_not_symbol el "timestamp"))
    as [[_ Hrun] | [_ (text & Hrun & Hne)]];
    cbn [optional_format] in Hrun; rewrite Hrun.
  - reflexivity.
  - destruct text as [|c text]; [congruence | reflexivity].
Qed.

Lemma forEach_assign_all (tz : TimeZone) (refs : list ElementRef) (doc : Node) :
  forEach refs (formatTimeStampElement_in tz) doc = Normal (assign_all tz refs doc).
Proof.
  revert doc. induction refs as [|ref rest IH]; intros doc; [reflexivity|].
  cbn [forEach]. unfold formatTimeStampElement_in at 1.
  rewrite innerText_assignment_normal. cbn [cbind]. rewrite IH. reflexivity.
Qed.

Lemma assign_all_app (tz : TimeZone) (refs1 refs2 : list ElementRef) (doc : Node) :
  assign_all tz (refs1 ++ refs2) doc = assign_all tz refs2 (assign_all tz refs1 doc).
Proof. unfold assign_all. apply fold_left_app. Qed.

Lemma text_run_identities (run : string) : flat_map identities (text_run run) = [].
Proof. now destruct run. Qed.

Lemma fragment_from_identities (run text : string) :
  flat_map identities (rendered_text_fragment_from run text) = [].
Proof.
  remember (String.length text) as size eqn:Hsize.
  assert (Hle : (String.length text <= size)%nat) by lia. clear Hsize.
  revert run text Hle. induction size as [|size IH]; intros run text Hle.
  - destruct text; [apply text_run_identities | cbn in Hle; lia].
  - destruct text as [|c rest]; [apply text_run_identities|].
    cbn [String.length] in Hle. cbn [rendered_text_fragment_from].
    assert (Hcons : forall r t,
               (String.length t <= size)%nat ->
               flat_map identities
                 (text_run r ++ LineBreak :: rendered_text_fragment_from "" t) = []).
    { intros r t Hlt. rewrite flat_map_app, text_run_identities. cbn.
      now apply IH. }
    destruct (Ascii.eqb c "010"); [apply Hcons; lia|].
    destruct (Ascii.eqb c "013").
    + destruct rest as [|c' rest'].
      * rewrite flat_map_app, text_run_identities. reflexivity.
      * cbn [String.length] in Hle.
        destruct (Ascii.eqb c' "010"); apply Hcons; cbn [String.length]; lia.
    + apply IH. lia.
Qed.

Lemma fragment_identities (text : string) :
  flat_map identities (rendered_text_fragment text) = [].
Proof. apply fragment_from_identities. Qed.

Lemma fragment_elements (text : string) :
  flat_map elements (rendered_text_fragment text) = [].
Proof.
  assert (H : forall l, flat_map identities l = [] -> flat_map elements l = []).
  { induction l as [|n l IH]; [reflexivity|]. cbn.
    destruct n; cbn; auto. discriminate. }
  apply H, fragment_identities.
Qed.

(** Assigning to an element that is not in the tree leaves the tree. *)
Lemma assign_innerText_absent (target : positive) (text : string) (n : Node) :
  ~ In target (identities n) -> assign_innerText target text n = n.
Proof.
  induction n as [data| |i tag attrs children IH] using Node_forall_ind;
    intros Habsent; try reflexivity.
  cbn [identities] in Habsent. cbn [assign_innerText].
  destruct (Pos.eqb_spec i target) as [-> | Hne].
  - exfalso. apply Habsent. now left.
  - f_equal. induction IH as [|c rest Hc _ IHrest]; [reflexivity|].
    cbn [flat_map] in Habsent. cbn [map]. f_equal.
    + apply Hc. intros Hin. apply Habsent. right. apply in_or_app. now left.
    + apply IHrest. intros [Heq | Hin]; apply Habsent; [now left|].
      right. apply in_or_app. now right.
Qed.

Lemma assign_all_absent (tz : TimeZone) (refs : list ElementRef) (n : Node) :
  (forall ref, In ref refs -> ~ In (ref_identity ref) (identities n)) ->
  assign_all tz refs n = n.
Proof.
  induction refs as [|ref rest IH]; intros Habsent; [reflexivity|].
  unfold assign_all in *. cbn [fold_left].
  assert (Hstep : match assignment_of tz ref with
                  | Some text => assign_innerText (ref_identity ref) text n
                  | None => n
                  end = n).
  { destruct (assignment_of tz ref); [|reflexivity].
    apply assign_innerText_absent, Habsent. now left. }
  rewrite Hstep. apply IH. intros r Hr. apply Habsent. now right.
Qed.

(** Assignments to other elements go down to the children. *)
Lemma assign_all_children (tz : TimeZone) (refs : list ElementRef)
    (i : positive) (tag : string) (attrs : gmap string string)
    (children : list Node) :
  (forall ref, In ref refs -> ref_identity ref <> i) ->
  assign_all tz refs (ElementNode i tag attrs children)
  = ElementNode i tag attrs (map (assign_all tz refs) children).
Proof.
  revert children. induction refs as [|ref rest IH]; intros children Hother.
  - unfold assign_all. cbn [fold_left]. now rewrite map_id.
  - assert (Hne : ref_identity ref <> i) by (apply Hother; now left).
    assert (Hrest : forall r, In r rest -> ref_identity r <> i)
      by (intros r Hr; apply Hother; now right).
    unfold assign_all in *. cbn [fold_left].
    destruct (assignment_of tz ref) as [text|].
    + cbn [assign_innerText].
      destruct (Pos.eqb_spec i (ref_identity ref)) as [Heq | _]; [congruence|].
      rewrite (IH _ Hrest). f_equal. rewrite map_map. reflexivity.
    + apply (IH _ Hrest).
Qed.

Lemma querySelectorAll_identities (name : string) (n : Node) (ref : ElementRef) :
  In ref (querySelectorAll_attribute name n) -> In (ref_identity ref) (identities n).
Proof.
  induction n as [data| |i tag attrs children IH] using Node_forall_ind;
    try (intros []).
  cbn [querySelectorAll_attribute identities]. intros Hin.
  apply in_app_or in Hin as [Hself | Hin].
  - destruct (decide _); [|destruct Hself].
    destruct Hself as [<- | []]. now left.
  - right. apply in_flat_map in Hin as (c & Hc & Hin). apply in_flat_map.
    exists c. split; [exact Hc|].
    rewrite Forall_forall in IH. apply (IH c); [|exact Hin].
    now apply list_elem_of_In.
Qed.

Lemma flat_map_sublist {A B : Type} (f g : A -> list B) (l : list A) :
  Forall (fun x => sublist (f x) (g x)) l ->
  sublist (flat_map f l) (flat_map g l).
Proof.
  induction 1 as [|x l Hx _ IH]; cbn [flat_map]; [constructor|].
  now apply sublist_app.
Qed.

Lemma formatted_view_identities (tz : TimeZone) (attribute : string) (n : Node) :
  sublist (identities (formatted_view tz attribute n)) (identities n).
Proof.
  induction n as [data| |i tag attrs children IH] using Node_forall_ind;
    try reflexivity.
  cbn [formatted_view].
  destruct (if decide (is_Some (attrs !! attribute))
            then assignment_of tz (mkRef i tag attrs) else None) as [text|];
    cbn [identities].
  - rewrite fragment_identities. apply sublist_skip, sublist_nil_l.
  - apply sublist_skip. rewrite flat_map_concat_map, map_map, <- flat_map_concat_map.
    apply (flat_map_sublist (fun c => identities (formatted_view tz attribute c))).
    exact IH.
Qed.

Lemma assign_all_view_children (tz : TimeZone) (attribute : string)
    (children : list Node) :
  Forall (fun c =>
            NoDup (identities c) ->
            assign_all tz (querySelectorAll_attribute attribute c) c
            = formatted_view tz attribute c) children ->
  NoDup (flat_map identities children) ->
  map (assign_all tz (flat_map (querySelectorAll_attribute attribute) children)) children
  = map (formatted_view tz attribute) children.
Proof.
  induction 1 as [|c rest Hc _ IH]; intros Hnodup; [reflexivity|].
  cbn [flat_map] in Hnodup |- *.
  apply NoDup_app in Hnodup as (Hnc & Hdisjoint & Hnrest).
  assert (Hrefs_rest : forall ref,
             In ref (flat_map (querySelectorAll_attribute attribute) rest) ->
             In (ref_identity ref) (flat_map identities rest)).
  { intros ref Hin. apply in_flat_map in Hin as (c' & Hc' & Hin).
    apply in_flat_map. exists c'. split; [exact Hc'|].
    now apply (querySelectorAll_identities attribute). }
  cbn [map]. f_equal.
  - rewrite assign_all_app, (Hc Hnc). apply assign_all_absent.
    intros ref Hin Hview. apply Hrefs_rest in Hin.
    apply (Hdisjoint (ref_identity ref)).
    + apply list_elem_of_In in Hview.
      exact (elem_of_sublist _ _ _ Hview (formatted_view_identities tz attribute c)).
    + now apply list_elem_of_In.
  - rewrite <- (IH Hnrest). apply map_ext_in. intros c' Hc'.
    rewrite assign_all_app. f_equal. apply assign_all_absent.
    intros ref Hin Hc'in.
    apply (querySelectorAll_identities attribute) in Hin.
    apply (Hdisjoint (ref_identity ref)).
    + now apply list_elem_of_In.
    + apply list_elem_of_In, in_flat_map. eauto.
Qed.

(** On a tree of distinct elements, carrying out the assignments of the
    node list in turn gives the top-down view. *)
Lemma assign_all_view (tz : TimeZone) (attribute : string) (n : Node) :
  NoDup (identities n) ->
  assign_all tz (querySelectorAll_attribute attribute n) n
  = formatted_view tz attribute n.
Proof.
  induction n as [data| |i tag attrs children IH] using Node_forall_ind;
    intros Hnodup; try reflexivity.
  cbn [identities] in Hnodup. apply NoDup_cons in Hnodup as [Hfresh Hnodup].
  assert (Hother : forall ref,
             In ref (flat_map (querySelectorAll_attribute attribute) children) ->
             ref_identity ref <> i).
  { intros ref Hin Heq. apply Hfresh. rewrite <- Heq. apply list_elem_of_In.
    apply in_flat_map in Hin as (c & Hc & Hin). apply in_flat_map.
    exists c. split; [exact Hc|].
    now apply (querySelectorAll_identities attribute). }
  assert (Hdown :
            assign_all tz (flat_map (querySelectorAll_attribute attribute) children)
              (ElementNode i tag attrs children)
            = ElementNode i tag attrs (map (formatted_view tz attribute) children)).
  { rewrite (assign_all_children tz _ i tag attrs children Hother).
    f_equal. now apply assign_all_view_children. }
  cbn [querySelectorAll_attribute formatted_view].
  destruct (decide (is_Some (attrs !! attribute))) as [Hsel | Hsel]; [|exact Hdown].
  rewrite assign_all_app.
  unfold assign_all at 2. cbn [fold_left ref_identity].
  destruct (assignment_of tz (mkRef i tag attrs)) as [text|]; [|exact Hdown].
  cbn [assign_innerText]. rewrite Pos.eqb_refl.
  apply assign_all_absent. intros ref Hin.
  cbn [identities]. rewrite fragment_identities.
  intros [Heq | []]. now apply (Hother ref Hin).
Qed.

Lemma formatted_view_idempotent (tz : TimeZone) (attribute : string) (n : Node) :
  formatted_view tz attribute (formatted_view tz attribute n)
  = formatted_view tz attribute n.
Proof.
  induction n as [data| |i tag attrs children IH] using Node_forall_ind;
    try reflexivity.
  cbn [formatted_view].
  destruct (if decide (is_Some (attrs !! attribute))
            then assignment_of tz (mkRef i tag attrs) else None) as [text|] eqn:Hsel;
    cbn [formatted_view]; rewrite Hsel; [reflexivity|].
  f_equal. rewrite map_map. apply map_ext_in. intros c Hc.
  rewrite Forall_forall in IH. apply IH. now apply list_elem_of_In.
Qed.

Lemma assign_innerText_elements (target : positive) (text : string) (n : Node) :
  incl (elements (assign_innerText target text n)) (elements n).
Proof.
  induction n as [data| |i tag attrs children IH] using Node_forall_ind;
    try apply incl_refl.
  cbn [assign_innerText].
  destruct (Pos.eqb i target); cbn [elements].
  - rewrite fragment_elements. intros ref [<- | []]. now left.
  - apply incl_cons; [now left|]. apply incl_tl.
    intros ref Hin. apply in_flat_map in Hin as (c' & Hc' & Hin).
    apply in_map_iff in Hc' as (c & <- & Hc).
    apply in_flat_map. exists c. split; [exact Hc|].
    rewrite Forall_forall in IH. apply (IH c); [|exact Hin].
    now apply list_elem_of_In.
Qed.

Lemma assign_all_elements (tz : TimeZone) (refs : list ElementRef) (n : Node) :
  incl (elements (assign_all tz refs n)) (elements n).
Proof.
  revert n. induction refs as [|ref rest IH]; intros n; [apply incl_refl|].
  unfold assign_all in *. cbn [fold_left].
  destruct (assignment_of tz ref) as [text|]; [|apply IH].
  eapply incl_tran; [apply IH | apply assign_innerText_elements].
Qed.

(** X7: on a page whose elements are distinct objects,
    [initTimeStamps('[attribute]')] returns the page in which every
    selected element that gets a text shows that text alone, outermost
    first: an element nested in one that got a text is gone with its
    text, and everything else is as it was. *)
Theorem initTimeStamps_formatted_view (tz : TimeZone) (attribute : string)
    (doc : Node) :
  NoDup (identities doc) ->
  initTimeStamps tz attribute doc = Normal (formatted_view tz attribute doc).
Proof.
  intros Hnodup. unfold initTimeStamps.
  rewrite forEach_assign_all. f_equal. now apply assign_all_view.
Qed.

(** X8: [initTimeStamps] never throws, and it makes no element and alters
    no tag or attribute: every element of the page it returns is an
    element of the page it was given, with the same tag and attributes
    (the line breaks that an assigned text may bring apart). *)
Theorem initTimeStamps_elements (tz : TimeZone) (attribute : string) (doc : Node) :
  exists doc',
    initTimeStamps tz attribute doc = Normal doc'
    /\ incl (elements doc') (elements doc).
Proof.
  unfold initTimeStamps. rewrite forEach_assign_all.
  eexists. split; [reflexivity | apply assign_all_elements].
Qed.

(** X9: on a page whose elements are distinct objects, [initTimeStamps]
    is idempotent: a second pass over the page it returned, as every
    later load event makes, returns the same page. *)
Theorem initTimeStamps_idempotent (tz : TimeZone) (attribute : string) (doc : Node) :
  NoDup (identities doc) ->
  cbind (initTimeStamps tz attribute doc) (initTimeStamps tz attribute)
  = initTimeStamps tz attribute doc.
Proof.
  intros Hnodup. unfold initTimeStamps.
  rewrite (forEach_assign_all tz _ doc), (assign_all_view tz attribute doc Hnodup).
  cbn [cbind]. rewrite forEach_assign_all. f_equal.
  rewrite assign_all_view.
  - apply formatted_view_idempotent.
  - eapply sublist_NoDup; [exact Hnodup | apply formatted_view_identities].
Qed.

Lemma initTimeStamps_formatted_view_witness :
  initTimeStamps UTC "data-timestamp"
    (ElementNode 1 "body" ∅
       [ElementNode 2 "div" {[ "data-timestamp" := "1700000000" ]}
          [TextNode "Updated ";
           ElementNode 3 "span" {[ "data-timestamp" := "0" ]} [TextNode "-"]];
        ElementNode 4 "p" {[ "data-timestamp" := "" ]} [TextNode "never"]])
  = Normal
      (ElementNode 1 "body" ∅
         [ElementNode 2 "div" {[ "data-timestamp" := "1700000000" ]}
            [TextNode "11/14/23 10:13:20 pm"];
          ElementNode 4 "p" {[ "data-timestamp" := "" ]} [TextNode "never"]]).
Proof.
  rewrite initTimeStamps_formatted_view.
  - vm_compute. reflexivity.
  - apply (bool_decide_unpack _). vm_compute. exact I.
Defined.

Lemma initTimeStamps_idempotent_witness :
  cbind
    (initTimeStamps UTC "data-timestamp"
       (ElementNode 1 "body" ∅
          [ElementNode 2 "div" {[ "data-timestamp" := "1700000000" ]}
             [ElementNode 3 "span" {[ "data-timestamp" := "0" ]} [TextNode "-"]]]))
    (initTimeStamps UTC "data-timestamp")
  = initTimeStamps UTC "data-timestamp"
      (ElementNode 1 "body" ∅
         [ElementNode 2 "div" {[ "data-timestamp" := "1700000000" ]}
            [ElementNode 3 "span" {[ "data-timestamp" := "0" ]} [TextNode "-"]]]).
Proof.
  apply initTimeStamps_idempotent.
  apply (bool_decide_unpack _). vm_compute. exact I.
Defined.
